(** * RLM PDF Chatbot: ingestion and query orchestration

    A shallow embedding of [src/ui/utils.py] and [src/ui/app.py].

    Python strings are sequences of Unicode code points, so a [str] is a
    list of code points ([N]); [bytes] are lists of [Byte.byte].  An
    exception is a value [Raise e] of the [result] type, where [e] is the
    text [str(e)] of the exception.  Libraries the program imports
    (unicodedata, PyMuPDF, the RLM engine) are the fields of the class
    [Externals]. *)

From Stdlib Require Import List String Ascii NArith Bool Arith Lia.
From Stdlib Require Decimal DecimalString.
From Stdlib.Strings Require Byte.
Import ListNotations.

Set Implicit Arguments.

(** ** Python values *)

Definition codepoint := N.
Definition str := list codepoint.
Definition bytes := list Byte.byte.

(** An ASCII literal of the source, as a [str]. *)
Definition lit (s : string) : str := map N_of_ascii (list_ascii_of_string s).

(** The line feed written [\n] in the source. *)
Definition nl : str := [10%N].

(** [str(n)] for a non-negative integer. *)
Definition str_of_nat (n : nat) : str := lit (DecimalString.NilZero.string_of_uint (Nat.to_uint n)).

(** [sep.join(parts)] *)
Fixpoint join (sep : str) (parts : list str) : str :=
  match parts with
  | [] => []
  | [p] => p
  | p :: rest => p ++ sep ++ join sep rest
  end.

(** [text.replace(old, new)] where [old] is one character, as every key of
    the substitution table is. *)
Definition replace (old : codepoint) (new : str) (text : str) : str :=
  flat_map (fun c => if N.eqb c old then new else [c]) text.

(** [c.isspace()]: the characters [str.strip()] removes. *)
Definition isspace (c : codepoint) : bool :=
  ((9 <=? c) && (c <=? 13) || (28 <=? c) && (c <=? 32) || (c =? 0x85) || (c =? 0xa0)
   || (c =? 0x1680) || (0x2000 <=? c) && (c <=? 0x200a) || (c =? 0x2028) || (c =? 0x2029)
   || (c =? 0x202f) || (c =? 0x205f) || (c =? 0x3000))%N.

Fixpoint lstrip (text : str) : str :=
  match text with
  | c :: rest => if isspace c then lstrip rest else text
  | [] => []
  end.

Definition strip (text : str) : str := rev (lstrip (rev (lstrip text))).

(** Truth value of a string: [if text:] *)
Definition nonempty (text : str) : bool :=
  match text with [] => false | _ :: _ => true end.

(** Truth value of a string that may be [None]: [if api_key:] *)
Definition truthy (v : option str) : bool :=
  match v with Some text => nonempty text | None => false end.

Definition str_eqb (a b : str) : bool :=
  if list_eq_dec N.eq_dec a b then true else false.

(** ** Exceptions *)

Inductive result (A : Type) : Type :=
| Ok (a : A)
| Raise (e : str).

Arguments Ok {A} a.
Arguments Raise {A} e.

Definition bind {A B : Type} (r : result A) (k : A -> result B) : result B :=
  match r with
  | Ok a => k a
  | Raise e => Raise e
  end.

Declare Scope result_scope.
Delimit Scope result_scope with result.
Notation "x <- r ;; k" := (bind r (fun x => k))
  (at level 61, r at next level, right associativity) : result_scope.
Open Scope result_scope.

(** ** The ASCII codec *)

Definition question_mark : Byte.byte := Byte.x3f.

(** [text.encode('ascii', errors='replace')]: a character the codec cannot
    encode becomes one [?]. *)
Definition encode_char (c : codepoint) : Byte.byte :=
  if (c <? 128)%N then
    match Byte.of_N c with Some b => b | None => question_mark end
  else question_mark.

Definition encode_ascii_replace (text : str) : bytes := map encode_char text.

(** [data.decode('ascii')]: strict, a byte of 128 or more raises. *)
Fixpoint decode_ascii (data : bytes) : result str :=
  match data with
  | [] => Ok []
  | b :: rest =>
      if (Byte.to_N b <? 128)%N then
        (text <- decode_ascii rest ;; Ok (Byte.to_N b :: text))
      else Raise (lit "'ascii' codec can't decode byte: ordinal not in range(128)")
  end.

(** ** Documents and pages, as PyMuPDF presents them *)

(** A page: what [page.get_text("text")] returns or raises. *)
Record Page := { get_text : result str }.

Definition Document := list Page.

(** A Streamlit [UploadedFile]. *)
Record UploadedFile := {
  name : str;
  read : result bytes
}.

(** ** The engine's constructor arguments *)

(** A Python dict with string keys; a value is a string or [None]. *)
Definition dict := list (str * option str).

(** [d[key] = value] *)
Fixpoint dict_set (d : dict) (key : str) (value : option str) : dict :=
  match d with
  | [] => [(key, value)]
  | (k, v) :: rest =>
      if str_eqb k key then (k, value) :: rest else (k, v) :: dict_set rest key value
  end.

Fixpoint dict_get (d : dict) (key : str) : option (option str) :=
  match d with
  | [] => None
  | (k, v) :: rest => if str_eqb k key then Some v else dict_get rest key
  end.

Record RLMArgs := {
  backend : str;
  backend_kwargs : dict;
  environment : str;
  persistent : bool;
  verbose : bool;
  max_iterations : nat
}.

(** ** What the program imports

    [nfkc] is [unicodedata.normalize("NFKC", _)]; [fitz_open] is
    [fitz.open(stream=_, filetype="pdf")]; [RLM_new] stands for the calls
    that end [get_rlm] (the log directory, the logger and the [RLM]
    constructor) and [completion] for [rlm.completion(prompt=_,
    root_prompt=_)], whose [response] attribute is a string or [None]. *)
Class Externals := {
  nfkc : str -> str;
  fitz_open : bytes -> result Document;
  RLM : Type;
  RLM_new : RLMArgs -> result RLM;
  completion : RLM -> option str -> str -> result (option str)
}.

(** NFKC leaves a string of ASCII characters as it is (Unicode's
    stability of ASCII under every normalization form). *)
Definition is_ascii (text : str) : Prop := Forall (fun c => (c < 128)%N) text.

Definition fixes_ascii (normalize : str -> str) : Prop :=
  forall text, is_ascii text -> normalize text = text.

(** ** utils.py *)

Section Utils.

Context {ext : Externals}.

(** The substitution table of [normalize_text], in the order of the dict. *)
Definition replacements : list (codepoint * str) :=
  [ (0x2212%N, lit "-");
    (0x2013%N, lit "-");
    (0x2014%N, lit "-");
    (0x2018%N, lit "'");
    (0x2019%N, lit "'");
    (0x201c%N, [34%N]);
    (0x201d%N, [34%N]);
    (0x2026%N, lit "...");
    (0x00a0%N, lit " ");
    (0x2217%N, lit "*");
    (0x2022%N, lit "-");
    (0x00b7%N, lit "-");
    (0x2192%N, lit "->");
    (0x2190%N, lit "<-");
    (0x2264%N, lit "<=");
    (0x2265%N, lit ">=");
    (0x00d7%N, lit "x");
    (0x00f7%N, lit "/");
    (0x221a%N, lit "sqrt");
    (0x03b1%N, lit "alpha");
    (0x03b2%N, lit "beta");
    (0x03b3%N, lit "gamma");
    (0x03bb%N, lit "lambda");
    (0x03c0%N, lit "pi");
    (0x03c3%N, lit "sigma");
    (0x03bc%N, lit "mu") ].

(** The loop [for char, replacement in replacements.items()]. *)
Definition substitute (text : str) : str :=
  fold_left (fun text kv => replace (fst kv) (snd kv) text) replacements text.

Definition normalize_text (text : str) : result str :=
  let text := nfkc text in
  let text := substitute text in
  decode_ascii (encode_ascii_replace text).

Definition rule : str := repeat 61%N 60.

(** [f"\n{'='*60}\nFILE: {file.name}\n{'='*60}\n"] *)
Definition file_banner (file_name : str) : str :=
  nl ++ rule ++ nl ++ lit "FILE: " ++ file_name ++ nl ++ rule ++ nl.

(** [f"\n--- Page {page_num} ---\n"] *)
Definition page_banner (page_num : nat) : str :=
  nl ++ lit "--- Page " ++ str_of_nat page_num ++ lit " ---" ++ nl.

(** [f"\n[Error reading {file.name}: {e}]\n"] *)
Definition error_marker (file_name e : str) : str :=
  nl ++ lit "[Error reading " ++ file_name ++ lit ": " ++ e ++ lit "]" ++ nl.

(** The loop over [enumerate(doc, start=1)], threading [file_text]. *)
Fixpoint read_pages (page_num : nat) (doc : Document) (file_text : list str)
  : result (list str) :=
  match doc with
  | [] => Ok file_text
  | page :: rest =>
      text <- get_text page ;;
      if nonempty (strip text) then
        normalized <- normalize_text text ;;
        read_pages (S page_num) rest (file_text ++ [page_banner page_num; normalized])
      else read_pages (S page_num) rest file_text
  end.

(** The body of the [try] for one file; [file.seek(0)] and [doc.close()]
    are taken to return. *)
Definition read_file (file : UploadedFile) : result str :=
  file_bytes <- read file ;;
  doc <- fitz_open file_bytes ;;
  file_text <- read_pages 1 doc [file_banner (name file)] ;;
  Ok (join [] file_text).

(** One iteration of the loop over the files: what is appended to
    [all_text]. *)
Definition extract_file (file : UploadedFile) : str :=
  match read_file file with
  | Ok text => text
  | Raise e => error_marker (name file) e
  end.

Definition extract_text_from_pdfs (uploaded_files : list UploadedFile) : str :=
  let all_text :=
    fold_left (fun all_text file => all_text ++ [extract_file file]) uploaded_files [] in
  join nl all_text.

Definition STRICT_QUERY_PREFIX : str :=
  lit "When answering, prefer information from the document in the context variable."
  ++ nl ++ lit "Cite specific passages when possible."
  ++ nl ++ nl ++ lit "User question: ".

(** The dict [backend_kwargs] that [get_rlm] builds. *)
Definition get_backend_kwargs (backend model_name : str) (api_key base_url : option str)
  : dict :=
  let backend_kwargs := [(lit "model_name", Some model_name)] in
  if str_eqb backend (lit "vllm") then
    let backend_kwargs := dict_set backend_kwargs (lit "base_url") base_url in
    dict_set backend_kwargs (lit "api_key")
      (if truthy api_key then api_key else Some (lit "ollama"))
  else if str_eqb backend (lit "openai") then
    dict_set backend_kwargs (lit "api_key") api_key
  else if str_eqb backend (lit "gemini") then
    dict_set backend_kwargs (lit "api_key") api_key
  else backend_kwargs.

Definition get_rlm_args (backend model_name : str) (api_key base_url : option str)
  : RLMArgs :=
  {| backend := backend;
     backend_kwargs := get_backend_kwargs backend model_name api_key base_url;
     environment := lit "local";
     persistent := true;
     verbose := true;
     max_iterations := 30 |}.

Definition get_rlm (backend model_name : str) (api_key base_url : option str)
  : result RLM :=
  RLM_new (get_rlm_args backend model_name api_key base_url).

End Utils.

(** ** app.py: the sidebar *)

Inductive BackendDisplay := OpenAI | Gemini | Ollama.

(** The option of the select box, as displayed. *)
Definition display_name (backend_display : BackendDisplay) : str :=
  match backend_display with
  | OpenAI => lit "OpenAI"
  | Gemini => lit "Gemini"
  | Ollama => lit "Ollama"
  end.

Definition backend_map (backend_display : BackendDisplay) : str :=
  match backend_display with
  | OpenAI => lit "openai"
  | Gemini => lit "gemini"
  | Ollama => lit "vllm"
  end.

Definition is_ollama (backend_display : BackendDisplay) : bool :=
  match backend_display with Ollama => true | _ => false end.

(** The process environment after [load_dotenv()]. *)
Record Environ := {
  OPENAI_API_KEY : option str;
  GEMINI_API_KEY : option str
}.

(** [os.getenv(key, "")] *)
Definition getenv (v : option str) : str :=
  match v with Some value => value | None => [] end.

Definition DEFAULT_OPENAI_KEY (env : Environ) : str := getenv (OPENAI_API_KEY env).
Definition DEFAULT_GEMINI_KEY (env : Environ) : str := getenv (GEMINI_API_KEY env).

(** [st.text_input(label, value=value)]: the text the user typed, or
    [value] while the field was left as it came. *)
Definition text_input (value : str) (typed : option str) : str :=
  match typed with Some text => text | None => value end.

(** [st.selectbox(label, options, index=index)] *)
Definition selectbox (options : list str) (index : nat) (chosen : option nat) : str :=
  nth (match chosen with Some i => i | None => index end) options [].

(** What the user did with the widgets of the sidebar. *)
Record Widgets := {
  chosen_backend : BackendDisplay;
  chosen_model : option nat;
  typed_model : option str;
  typed_key : option str;
  typed_override : option str;
  typed_base_url : option str
}.

(** The variables the sidebar leaves for the button's handler. *)
Record Sidebar := {
  backend_display : BackendDisplay;
  model_name : str;
  api_key : str;
  base_url : option str
}.

Definition OLLAMA_BASE_URL : str := lit "http://localhost:11434/v1".

Definition key_field (default_key : str) (w : Widgets) : str :=
  if nonempty default_key then
    let override_key := text_input [] (typed_override w) in
    if nonempty override_key then override_key else default_key
  else text_input [] (typed_key w).

Definition sidebar (env : Environ) (w : Widgets) : Sidebar :=
  match chosen_backend w with
  | OpenAI =>
      {| backend_display := OpenAI;
         model_name :=
           selectbox [lit "gpt-5.1"; lit "gpt-5-mini"; lit "gpt-5-nano"; lit "gpt-4o";
                      lit "gpt-4-turbo"] 1 (chosen_model w);
         api_key := key_field (DEFAULT_OPENAI_KEY env) w;
         base_url := None |}
  | Gemini =>
      {| backend_display := Gemini;
         model_name :=
           selectbox [lit "gemini-2.5-pro"; lit "gemini-2.5-flash-lite";
                      lit "gemini-2.0-flash"] 1 (chosen_model w);
         api_key := key_field (DEFAULT_GEMINI_KEY env) w;
         base_url := None |}
  | Ollama =>
      {| backend_display := Ollama;
         model_name := text_input (lit "llama3") (typed_model w);
         api_key := text_input (lit "ollama") (typed_key w);
         base_url := Some (text_input OLLAMA_BASE_URL (typed_base_url w)) |}
  end.

(** ** app.py: the session and its two handlers *)

Inductive Role := user | assistant.

Record Message := { role : Role; content : str }.

(** What a handler shows or calls.  [st_success_loaded n c] is the message
    that [n] PDFs with [c] characters were loaded; [rlm_completion] records
    the two arguments of the engine call. *)
Inductive Effect :=
| st_error (msg : str)
| st_success_loaded (n_files n_chars : nat)
| st_markdown (who : Role) (body : str)
| rlm_completion (prompt : option str) (root_prompt : str).

Definition FALLBACK_ANSWER : str :=
  lit "I could not generate a response. The document may not contain relevant information for this question, or the model encountered an issue.".

Section App.

Context {ext : Externals}.

(** [st.session_state] *)
Record SessionState := {
  messages : list Message;
  rlm_instance : option RLM;
  pdf_context : option str;
  context_loaded : bool
}.

Definition initial_state : SessionState :=
  {| messages := []; rlm_instance := None; pdf_context := None; context_loaded := false |}.

(** The [else] branch of the button's handler: extraction, then the engine. *)
Definition extract_and_initialize (s : SessionState) (uploaded_files : list UploadedFile)
  (cfg : Sidebar) : SessionState * Effect :=
  let pdf_text := extract_text_from_pdfs uploaded_files in
  let s :=
    {| messages := messages s; rlm_instance := rlm_instance s;
       pdf_context := Some pdf_text; context_loaded := context_loaded s |} in
  match get_rlm (backend_map (backend_display cfg)) (model_name cfg)
          (Some (api_key cfg)) (base_url cfg) with
  | Ok rlm =>
      ({| messages := []; rlm_instance := Some rlm;
          pdf_context := pdf_context s; context_loaded := true |},
       st_success_loaded (List.length uploaded_files) (List.length pdf_text))
  | Raise e => (s, st_error (lit "Failed to initialize RLM: " ++ e))
  end.

(** The handler of the button [Load PDFs & Initialize]. *)
Definition load_button (s : SessionState) (uploaded_files : list UploadedFile)
  (cfg : Sidebar) : SessionState * Effect :=
  if negb (match uploaded_files with [] => false | _ :: _ => true end) then
    (s, st_error (lit "Please upload at least one PDF file."))
  else if negb (nonempty (api_key cfg)) && negb (is_ollama (backend_display cfg)) then
    (s, st_error (lit "Please enter your " ++ display_name (backend_display cfg)
                    ++ lit " API Key."))
  else extract_and_initialize s uploaded_files cfg.

Definition append_message (s : SessionState) (m : Message) : SessionState :=
  {| messages := messages s ++ [m]; rlm_instance := rlm_instance s;
     pdf_context := pdf_context s; context_loaded := context_loaded s |}.

Definition full_prompt (prompt : str) : str := STRICT_QUERY_PREFIX ++ prompt.

(** The [try] of the chat handler: the turn the assistant adds to the
    history, with what was called and shown. *)
Definition answer_turn (s : SessionState) (prompt : str) : Message * list Effect :=
  match rlm_instance s with
  | None =>
      let error_msg :=
        lit "Error: " ++ lit "'NoneType' object has no attribute 'completion'" in
      ({| role := assistant; content := error_msg |}, [st_error error_msg])
  | Some rlm =>
      let context := pdf_context s in
      match completion rlm context (full_prompt prompt) with
      | Ok response =>
          let answer :=
            match response with Some answer => answer | None => FALLBACK_ANSWER end in
          ({| role := assistant; content := answer |},
           [rlm_completion context (full_prompt prompt); st_markdown assistant answer])
      | Raise e =>
          let error_msg := lit "Error: " ++ e in
          ({| role := assistant; content := error_msg |},
           [rlm_completion context (full_prompt prompt); st_error error_msg])
      end
  end.

(** The handler of the chat input; [prompt] is what [st.chat_input]
    returned, the empty string standing for no submitted question. *)
Definition chat_input (s : SessionState) (prompt : str) : SessionState * list Effect :=
  if nonempty prompt then
    if negb (context_loaded s) then
      (s, [st_error (lit "Please load PDFs first using the sidebar.")])
    else
      let s := append_message s {| role := user; content := prompt |} in
      let '(reply, effects) := answer_turn s prompt in
      (append_message s reply, st_markdown user prompt :: effects)
  else (s, []).

(** One interaction with the page. *)
Inductive Event :=
| Load (uploaded_files : list UploadedFile) (cfg : Sidebar)
| Ask (prompt : str).

Definition loaded (e : Effect) : bool :=
  match e with st_success_loaded _ _ => true | _ => false end.

Definition handle (s : SessionState) (ev : Event) : SessionState :=
  match ev with
  | Load uploaded_files cfg => fst (load_button s uploaded_files cfg)
  | Ask prompt => fst (chat_input s prompt)
  end.

(** The sessions that interactions reach from the start of the process
    while no load has succeeded. *)
Inductive unloaded : SessionState -> Prop :=
| unloaded_initial : unloaded initial_state
| unloaded_load s uploaded_files cfg :
    unloaded s ->
    loaded (snd (load_button s uploaded_files cfg)) = false ->
    unloaded (fst (load_button s uploaded_files cfg))
| unloaded_ask s prompt :
    unloaded s -> unloaded (fst (chat_input s prompt)).

End App.

(** ** Scripted imports, to run the model on examples

    A fragment of NFKC (the ligature fi, the ellipsis, the micro sign), a
    PDF library that knows three byte strings, an engine constructor given
    as a function and an engine that gives one scripted reply. *)

Definition nfkc_sample (text : str) : str :=
  flat_map (fun c =>
    if (c =? 0xfb01)%N then lit "fi"
    else if (c =? 0x2026)%N then lit "..."
    else if (c =? 0xb5)%N then [0x3bc%N]
    else [c]) text.

Definition page_of (text : str) : Page := {| get_text := Ok text |}.

Definition fitz_open_sample (data : bytes) : result Document :=
  match data with
  | [Byte.x01] => Ok [page_of (lit "Revenue: $5M"); page_of (lit "   ")]
  | [Byte.x02] => Ok [page_of (lit "Costs " ++ [0x2264%N] ++ lit " $2M")]
  | [Byte.x03] =>
      Ok [page_of (lit "Intro"); {| get_text := Raise (lit "bad page tree") |};
          page_of (lit "Outro")]
  | _ => Raise (lit "Failed to open stream")
  end.

Definition scripted (construct : RLMArgs -> result RLMArgs) (reply : result (option str))
  : Externals :=
  {| nfkc := nfkc_sample;
     fitz_open := fitz_open_sample;
     RLM := RLMArgs;
     RLM_new := construct;
     completion := fun _ _ _ => reply |}.

(** An engine constructor that returns, the handle being its arguments,
    and one that raises as [os.makedirs] does where the log directory
    cannot be created. *)
Definition construct_ok (args : RLMArgs) : result RLMArgs := Ok args.

Definition construct_denied (args : RLMArgs) : result RLMArgs :=
  Raise (lit "[Errno 13] Permission denied: 'logs'").

Definition report_pdf : UploadedFile := {| name := lit "report.pdf"; read := Ok [Byte.x01] |}.
Definition costs_pdf : UploadedFile := {| name := lit "costs.pdf"; read := Ok [Byte.x02] |}.
Definition torn_pdf : UploadedFile := {| name := lit "torn.pdf"; read := Ok [Byte.x03] |}.
Definition corrupt_pdf : UploadedFile := {| name := lit "corrupt.pdf"; read := Ok [Byte.x00] |}.

Definition ollama_untouched : Widgets :=
  {| chosen_backend := Ollama; chosen_model := None; typed_model := None;
     typed_key := None; typed_override := None; typed_base_url := None |}.

Definition no_keys : Environ := {| OPENAI_API_KEY := None; GEMINI_API_KEY := None |}.

(** ** Predicates of the statements, and sample sessions *)

(** What the codec's round trip does to one character. *)
Definition ascii_or_placeholder (c : codepoint) : codepoint :=
  if (c <? 128)%N then c else 63%N.

(** Printable ASCII: the space up to the tilde. *)
Definition printable (c : codepoint) : bool := ((32 <=? c) && (c <=? 126))%N.

(** A string that [normalize_text] returns unchanged whatever NFKC does
    outside ASCII. *)
Definition kept_as_is (s : str) : Prop :=
  forall ext : Externals, fixes_ascii nfkc -> normalize_text s = Ok s.

(** [part] is a substring of [whole]. *)
Definition occurs_in (part whole : str) : Prop :=
  exists before after, whole = before ++ part ++ after.

(** A page that is read: its text is not blank, and [normalized] is what
    [normalize_text] makes of it. *)
Definition page_text {ext : Externals} (doc : Document) (normalized : str) : Prop :=
  exists page text,
    In page doc /\ get_text page = Ok text /\ nonempty (strip text) = true
    /\ normalize_text text = Ok normalized.

(** The text of a page of [file], when the file opens. *)
Definition page_text_of {ext : Externals} (file : UploadedFile) (normalized : str) : Prop :=
  exists data doc,
    read file = Ok data /\ fitz_open data = Ok doc /\ page_text doc normalized.

(** A session that was loaded earlier and has a conversation. *)
Definition earlier_session {ext : Externals} (rlm : RLM) : SessionState :=
  {| messages :=
       [ {| role := user; content := lit "Hello" |};
         {| role := assistant; content := lit "Hi" |} ];
     rlm_instance := Some rlm;
     pdf_context := Some (lit "old corpus");
     context_loaded := true |}.

Definition ollama_llama3 : RLMArgs :=
  get_rlm_args (lit "vllm") (lit "llama3") (Some (lit "ollama")) (Some OLLAMA_BASE_URL).

(** The earlier session, for the scripted imports. *)
Definition earlier_sample (construct : RLMArgs -> result RLMArgs)
  (reply : result (option str)) : @SessionState (scripted construct reply) :=
  @earlier_session (scripted construct reply) ollama_llama3.

(** The sidebar as it comes with Ollama chosen. *)
Definition ollama_sidebar : Sidebar := sidebar no_keys ollama_untouched.

(** The sidebar with OpenAI chosen, the model [gpt-x] and a given key. *)
Definition openai_gpt_x (key : str) : Sidebar :=
  {| backend_display := OpenAI; model_name := lit "gpt-x"; api_key := key;
     base_url := None |}.

(** The arguments [get_rlm] builds for OpenAI, [gpt-x] and a key. *)
Definition openai_gpt_x_args (key : str) : RLMArgs :=
  {| backend := lit "openai";
     backend_kwargs := [ (lit "model_name", Some (lit "gpt-x")); (lit "api_key", Some key) ];
     environment := lit "local";
     persistent := true;
     verbose := true;
     max_iterations := 30 |}.

(** ** app.py: the script, run again at every interaction *)

Section Script.

Context {ext : Externals}.

(** [st.session_state] as a run of the script finds it: a key is there or
    is missing. *)
Record RawSessionState := {
  raw_messages : option (list Message);
  raw_rlm_instance : option (option RLM);
  raw_pdf_context : option (option str);
  raw_context_loaded : option bool
}.

(** The four tests [if key not in st.session_state] that open the script. *)
Definition initialize_session (raw : RawSessionState) : SessionState :=
  {| messages := match raw_messages raw with Some m => m | None => [] end;
     rlm_instance := match raw_rlm_instance raw with Some r => r | None => None end;
     pdf_context := match raw_pdf_context raw with Some c => c | None => None end;
     context_loaded := match raw_context_loaded raw with Some b => b | None => false end |}.

(** The session state a run leaves for the next one. *)
Definition stored (s : SessionState) : RawSessionState :=
  {| raw_messages := Some (messages s);
     raw_rlm_instance := Some (rlm_instance s);
     raw_pdf_context := Some (pdf_context s);
     raw_context_loaded := Some (context_loaded s) |}.

Definition fresh : RawSessionState :=
  {| raw_messages := None; raw_rlm_instance := None; raw_pdf_context := None;
     raw_context_loaded := None |}.

(** What a run of the script shows: what a handler shows or calls outside
    a chat bubble, the messages of the sidebar, and the chat bubbles, each
    a block [with st.chat_message(who)] with what is shown or called inside
    it.  Headers, captions and spinners, which no state decides, are left
    out. *)
Inductive Shown :=
| effect (e : Effect)
| st_success (msg : str)
| st_info (msg : str)
| chat_message (who : Role) (inside : list Effect).

(** The message on a key found in the environment, for a hosted backend. *)
Definition key_loaded_notice (env : Environ) (w : Widgets) : list Shown :=
  let notice := [st_success ([0x2713%N] ++ lit " API Key loaded from .env")] in
  match chosen_backend w with
  | OpenAI => if nonempty (DEFAULT_OPENAI_KEY env) then notice else []
  | Gemini => if nonempty (DEFAULT_GEMINI_KEY env) then notice else []
  | Ollama => []
  end.

(** The status indicator that ends the sidebar. *)
Definition status_indicator (s : SessionState) : Shown :=
  if context_loaded s then st_success (lit "Context loaded. Ready to chat!")
  else st_info (lit "Upload PDFs and click 'Load' to start.").

(** The loop that displays the chat history: one bubble for each message. *)
Definition display_history (s : SessionState) : list Shown :=
  map (fun message =>
         chat_message (role message) [st_markdown (role message) (content message)])
    (messages s).

(** What the chat handler shows: the refusal outside any bubble, or the
    bubble of the user with the question and the bubble of the assistant,
    which is opened before the [try] and holds all that [answer_turn] calls
    and shows, the error of a failed call too. *)
Definition chat_shown (s : SessionState) (prompt : str) : list Shown :=
  if nonempty prompt then
    if negb (context_loaded s) then
      [effect (st_error (lit "Please load PDFs first using the sidebar."))]
    else
      let s := append_message s {| role := user; content := prompt |} in
      [ chat_message user [st_markdown user prompt];
        chat_message assistant (snd (answer_turn s prompt)) ]
  else [].

(** The effects of a handler among what is shown, in order. *)
Definition shown_effects (shown : list Shown) : list Effect :=
  flat_map (fun item => match item with
                        | effect e => [e]
                        | chat_message _ inside => inside
                        | _ => []
                        end) shown.

(** One interaction: the widgets of the sidebar, the uploaded files,
    whether the button was clicked, and the submitted question (empty when
    none was). *)
Record Interaction := {
  widgets : Widgets;
  uploaded : list UploadedFile;
  clicked : bool;
  submitted : str
}.

(** One run of the script, top to bottom. *)
Definition script (env : Environ) (raw : RawSessionState) (i : Interaction)
  : SessionState * list Shown :=
  let s := initialize_session raw in
  let cfg := sidebar env (widgets i) in
  let after_button :=
    if clicked i then
      let '(s, e) := load_button s (uploaded i) cfg in (s, [effect e])
    else (s, []) in
  let s := fst after_button in
  let status := status_indicator s in
  let history := display_history s in
  (fst (chat_input s (submitted i)),
   key_loaded_notice env (widgets i) ++ snd after_button ++ [status]
     ++ history ++ chat_shown s (submitted i)).

(** The text a chat bubble holds: what [st.markdown] or [st.error] writes
    in it. *)
Definition bubble_text (inside : list Effect) : str :=
  flat_map (fun e => match e with
                     | st_markdown _ body => body
                     | st_error msg => msg
                     | _ => []
                     end) inside.

(** The chat bubbles among what a run shows, each with its role and its
    text. *)
Fixpoint bubbles (shown : list Shown) : list (Role * str) :=
  match shown with
  | [] => []
  | chat_message who inside :: rest => (who, bubble_text inside) :: bubbles rest
  | _ :: rest => bubbles rest
  end.

(** The sessions that interactions reach from the start of the process. *)
Inductive reachable : SessionState -> Prop :=
| reachable_initial : reachable initial_state
| reachable_handle s ev : reachable s -> reachable (handle s ev).

End Script.

(** ** Further predicates of the statements *)

(** The substitution table read in one pass: the replacement of the first
    entry whose key is [c], or [c] itself. *)
Fixpoint lookup_replacement (table : list (codepoint * str)) (c : codepoint) : str :=
  match table with
  | [] => [c]
  | (key, replacement) :: rest =>
      if (c =? key)%N then replacement else lookup_replacement rest c
  end.

(** A character that [strip] does not remove. *)
Definition visible (c : codepoint) : bool := negb (isspace c).

(** A history made of questions, each followed by its reply. *)
Definition turns_of (turns : list (str * str)) : list Message :=
  flat_map (fun turn => [ {| role := user; content := fst turn |};
                          {| role := assistant; content := snd turn |} ]) turns.

(** The engine calls among the effects of a handler. *)
Definition engine_calls (effects : list Effect) : list (option str * str) :=
  flat_map (fun e => match e with
                     | rlm_completion prompt root_prompt => [(prompt, root_prompt)]
                     | _ => []
                     end) effects.

(** An environment with an OpenAI key, and a sidebar where a key was typed
    in the override field. *)
Definition openai_key_in_env : Environ :=
  {| OPENAI_API_KEY := Some (lit "sk-env"); GEMINI_API_KEY := None |}.

Definition openai_overridden : Widgets :=
  {| chosen_backend := OpenAI; chosen_model := None; typed_model := None;
     typed_key := Some (lit "ignored"); typed_override := Some (lit "sk-mine");
     typed_base_url := None |}.

(** The sidebar with Ollama chosen and the endpoint field emptied. *)
Definition ollama_cleared : Widgets :=
  {| chosen_backend := Ollama; chosen_model := None; typed_model := None;
     typed_key := None; typed_override := None; typed_base_url := Some [] |}.

(** The arguments [get_rlm] builds for Ollama from the variables of the
    sidebar: the endpoint as it is, and [ollama] for an empty key. *)
Definition ollama_args (cfg : Sidebar) : RLMArgs :=
  {| backend := lit "vllm";
     backend_kwargs :=
       [ (lit "model_name", Some (model_name cfg));
         (lit "base_url", base_url cfg);
         (lit "api_key",
          Some (if nonempty (api_key cfg) then api_key cfg else lit "ollama")) ];
     environment := lit "local";
     persistent := true;
     verbose := true;
     max_iterations := 30 |}.

(** * Properties *)

(** ** The text normalizer *)

Lemma encode_char_to_N c : Byte.to_N (encode_char c) = ascii_or_placeholder c.
Proof.
  unfold encode_char, ascii_or_placeholder.
  destruct (N.ltb_spec c 128) as [Hlt | Hge]; [ | reflexivity ].
  destruct (Byte.of_N c) as [b | ] eqn:Hb.
  - now apply Byte.to_of_N.
  - apply Byte.of_N_None_iff in Hb. lia.
Qed.

Lemma ascii_or_placeholder_lt c : (ascii_or_placeholder c < 128)%N.
Proof.
  unfold ascii_or_placeholder.
  destruct (N.ltb_spec c 128); lia.
Qed.

Lemma decode_encode text :
  decode_ascii (encode_ascii_replace text) = Ok (map ascii_or_placeholder text).
Proof.
  unfold encode_ascii_replace.
  induction text as [ | c text IH ]; [ reflexivity | ].
  cbn [map decode_ascii].
  rewrite encode_char_to_N.
  pose proof (ascii_or_placeholder_lt c) as Hc.
  apply N.ltb_lt in Hc. rewrite Hc, IH. reflexivity.
Qed.

Lemma is_ascii_placeholder text : is_ascii (map ascii_or_placeholder text).
Proof.
  unfold is_ascii. apply Forall_map, Forall_forall.
  intros c _. apply ascii_or_placeholder_lt.
Qed.

Lemma placeholder_ascii text : is_ascii text -> map ascii_or_placeholder text = text.
Proof.
  induction 1 as [ | c text Hc _ IH ]; simpl; [ reflexivity | ].
  rewrite IH. unfold ascii_or_placeholder.
  apply N.ltb_lt in Hc. now rewrite Hc.
Qed.

Lemma replace_ascii old new text :
  (128 <= old)%N -> is_ascii text -> replace old new text = text.
Proof.
  intros Hold. unfold replace.
  induction 1 as [ | c text Hc _ IH ]; [ reflexivity | ].
  cbn [flat_map]. rewrite IH.
  destruct (N.eqb_spec c old); [ lia | reflexivity ].
Qed.

Lemma replacements_keys : Forall (fun kv => (128 <= fst kv)%N) replacements.
Proof. repeat constructor; simpl; lia. Qed.

Lemma substitute_ascii text : is_ascii text -> substitute text = text.
Proof.
  intros Htext. unfold substitute.
  pose proof replacements_keys as Hkeys.
  induction Hkeys as [ | kv table Hkv _ IH ]; simpl; [ reflexivity | ].
  rewrite replace_ascii by assumption. exact IH.
Qed.

Lemma normalize_text_eq {ext : Externals} text :
  normalize_text text = Ok (map ascii_or_placeholder (substitute (nfkc text))).
Proof. unfold normalize_text. apply decode_encode. Qed.

Lemma normalize_text_total {ext : Externals} text : exists t, normalize_text text = Ok t.
Proof. eexists. apply normalize_text_eq. Qed.

Lemma normalize_text_fixes_ascii {ext : Externals} text :
  fixes_ascii nfkc -> is_ascii text -> normalize_text text = Ok text.
Proof.
  intros Hnfkc Htext. rewrite normalize_text_eq, (Hnfkc text Htext).
  rewrite substitute_ascii by assumption.
  now rewrite placeholder_ascii.
Qed.

Lemma nfkc_sample_fixes_ascii : fixes_ascii nfkc_sample.
Proof.
  intros text. unfold nfkc_sample.
  induction 1 as [ | c text Hc _ IH ]; [ reflexivity | ].
  cbn [flat_map]. rewrite IH.
  destruct (N.eqb_spec c 0xfb01); [ lia | ].
  destruct (N.eqb_spec c 0x2026); [ lia | ].
  destruct (N.eqb_spec c 0xb5); [ lia | reflexivity ].
Qed.

(** C5. [normalize_text] is idempotent: it returns on every string, and
    applied to its own result it returns that result again.  NFKC is taken
    to leave ASCII strings as they are. *)
Theorem normalize_text_idempotent {ext : Externals} (Hnfkc : fixes_ascii nfkc) (s : str) :
  exists t, normalize_text s = Ok t /\ normalize_text t = Ok t.
Proof.
  exists (map ascii_or_placeholder (substitute (nfkc s))). split.
  - apply normalize_text_eq.
  - apply normalize_text_fixes_ascii; [ assumption | apply is_ascii_placeholder ].
Qed.

Lemma normalize_text_idempotent_witness :
  fixes_ascii nfkc_sample
  /\ exists t,
       @normalize_text (scripted construct_ok (Ok None))
         ([0x3b1; 0x2264; 0xfb01; 0x4e2d; 10]%N ++ lit "x") = Ok t
       /\ @normalize_text (scripted construct_ok (Ok None)) t = Ok t.
Proof.
  split.
  - exact nfkc_sample_fixes_ascii.
  - exact (@normalize_text_idempotent (scripted construct_ok (Ok None))
             nfkc_sample_fixes_ascii ([0x3b1; 0x2264; 0xfb01; 0x4e2d; 10]%N ++ lit "x")).
Defined.

(** C6, as the code has it. [normalize_text] returns on every string, every
    character of its result is below 128, and the result is the text after
    NFKC and the substitution table with each character of 128 or more
    replaced by a question mark and each ASCII character kept. *)
Theorem normalize_text_ascii {ext : Externals} (s : str) :
  exists t,
    normalize_text s = Ok t
    /\ is_ascii t
    /\ t = map (fun c => if (c <? 128)%N then c else 63%N) (substitute (nfkc s)).
Proof.
  exists (map ascii_or_placeholder (substitute (nfkc s))).
  split; [ apply normalize_text_eq | ].
  split; [ apply is_ascii_placeholder | reflexivity ].
Qed.

(** C6, as the spec has it, fails on a line feed: it is outside printable
    ASCII, and it is kept, not replaced by the placeholder. *)
Lemma normalize_text_keeps_line_feed :
  kept_as_is nl /\ printable 10%N = false /\ nl <> [63%N].
Proof.
  split; [ | split; [ reflexivity | discriminate ] ].
  intros ext Hnfkc. apply normalize_text_fixes_ascii; [ assumption | ].
  repeat constructor.
Qed.

(** ** The extractor *)

Lemma occurs_in_refl text : occurs_in text text.
Proof. exists [], []. now rewrite app_nil_r. Qed.

Lemma occurs_in_app_l part whole more : occurs_in part whole -> occurs_in part (more ++ whole).
Proof.
  intros (before & after & ->). exists (more ++ before), after.
  now rewrite <- app_assoc.
Qed.

Lemma occurs_in_app_r part whole more : occurs_in part whole -> occurs_in part (whole ++ more).
Proof.
  intros (before & after & ->). exists before, (after ++ more).
  now rewrite <- !app_assoc.
Qed.

Create HintDb occurs.
#[local] Hint Resolve occurs_in_refl occurs_in_app_l occurs_in_app_r : occurs.

Lemma join_cons sep p q rest : join sep (p :: q :: rest) = p ++ sep ++ join sep (q :: rest).
Proof. reflexivity. Qed.

Lemma join_empty_sep parts : join [] parts = List.concat parts.
Proof.
  induction parts as [ | p [ | q rest ] IH ]; [ reflexivity | simpl; now rewrite app_nil_r | ].
  rewrite join_cons, IH. reflexivity.
Qed.

Lemma occurs_in_concat part parts : In part parts -> occurs_in part (List.concat parts).
Proof.
  induction parts as [ | p parts IH ]; [ intros [] | ].
  intros [ -> | Hin ]; simpl; auto with occurs.
Qed.

Section Extraction.

Context {ext : Externals}.

Lemma all_text_fold files acc :
  fold_left (fun all_text file => all_text ++ [extract_file file]) files acc
  = acc ++ map extract_file files.
Proof.
  revert acc. induction files as [ | file files IH ]; intros acc; simpl.
  - now rewrite app_nil_r.
  - rewrite IH, <- app_assoc. reflexivity.
Qed.

Lemma extract_text_from_pdfs_eq files :
  extract_text_from_pdfs files = join nl (map extract_file files).
Proof. unfold extract_text_from_pdfs. now rewrite all_text_fold. Qed.

Lemma extract_one file : extract_text_from_pdfs [file] = extract_file file.
Proof. now rewrite extract_text_from_pdfs_eq. Qed.

Lemma read_pages_extends doc : forall page_num file_text out,
  read_pages page_num doc file_text = Ok out ->
  exists more,
    out = file_text ++ more /\ forall normalized, page_text doc normalized -> In normalized more.
Proof.
  induction doc as [ | page doc IH ]; intros page_num file_text out Hout.
  - injection Hout as <-. exists []. split; [ now rewrite app_nil_r | ].
    intros normalized (page & text & [] & _).
  - cbn [read_pages] in Hout.
    destruct (get_text page) as [ text | e ] eqn:Hpage; [ | discriminate ].
    cbn [bind] in Hout.
    destruct (nonempty (strip text)) eqn:Hblank.
    + destruct (normalize_text text) as [ normalized | e ] eqn:Hnorm; [ | discriminate ].
      cbn [bind] in Hout.
      destruct (IH _ _ _ Hout) as (more & -> & Hmore).
      exists (page_banner page_num :: normalized :: more).
      split; [ now rewrite <- app_assoc | ].
      intros n (page' & text' & [ <- | Hin ] & Htext' & Hblank' & Hnorm').
      * right; left. congruence.
      * right; right. apply Hmore. now exists page', text'.
    + destruct (IH _ _ _ Hout) as (more & -> & Hmore).
      exists more. split; [ reflexivity | ].
      intros n (page' & text' & [ <- | Hin ] & Htext' & Hblank' & Hnorm').
      * congruence.
      * apply Hmore. now exists page', text'.
Qed.

Lemma read_file_page_text file out normalized :
  read_file file = Ok out -> page_text_of file normalized -> occurs_in normalized out.
Proof.
  unfold read_file. intros Hout (data & doc & Hread & Hopen & Hpage).
  rewrite Hread in Hout. cbn [bind] in Hout. rewrite Hopen in Hout. cbn [bind] in Hout.
  destruct (read_pages 1 doc [file_banner (name file)]) as [ file_text | e ] eqn:Hpages;
    [ | discriminate ].
  cbn [bind] in Hout. injection Hout as <-.
  destruct (read_pages_extends _ _ _ Hpages) as (more & -> & Hmore).
  rewrite join_empty_sep. apply occurs_in_concat, in_or_app. right. now apply Hmore.
Qed.

(** A failure at one page, after pages that were read, is the failure of
    the whole loop over the pages. *)
Lemma read_pages_raise good bad rest e :
  Forall (fun page => exists text, get_text page = Ok text) good ->
  get_text bad = Raise e ->
  forall page_num file_text, read_pages page_num (good ++ bad :: rest) file_text = Raise e.
Proof.
  intros Hgood Hbad.
  induction Hgood as [ | page good (text & Hpage) _ IH ]; intros page_num file_text.
  - cbn [app read_pages]. now rewrite Hbad.
  - cbn [app read_pages]. rewrite Hpage. cbn [bind].
    destruct (nonempty (strip text)); [ | apply IH ].
    rewrite normalize_text_eq. cbn [bind]. apply IH.
Qed.

End Extraction.

(** C3. For a batch [valid, corrupt, valid2] in which reading [corrupt]
    raises and the two others are read, the corpus is the text extracted
    from [valid], the error marker of [corrupt] and the text extracted from
    [valid2], in this order and separated by line feeds: the batch is not
    aborted, the text of every page of [valid] and [valid2] that was read
    occurs in the corpus, and the marker names [corrupt]. *)
Theorem partial_failure_isolation {ext : Externals}
  (valid corrupt valid2 : UploadedFile) (text1 text2 e : str)
  (Hvalid : read_file valid = Ok text1)
  (Hcorrupt : read_file corrupt = Raise e)
  (Hvalid2 : read_file valid2 = Ok text2) :
  extract_text_from_pdfs [valid; corrupt; valid2]
  = text1 ++ nl ++ error_marker (name corrupt) e ++ nl ++ text2
  /\ extract_text_from_pdfs [valid] = text1
  /\ extract_text_from_pdfs [valid2] = text2
  /\ (forall normalized,
        page_text_of valid normalized \/ page_text_of valid2 normalized ->
        occurs_in normalized (extract_text_from_pdfs [valid; corrupt; valid2]))
  /\ occurs_in (error_marker (name corrupt) e) (extract_text_from_pdfs [valid; corrupt; valid2])
  /\ occurs_in (name corrupt) (error_marker (name corrupt) e).
Proof.
  assert (Hcorpus : extract_text_from_pdfs [valid; corrupt; valid2]
                    = text1 ++ nl ++ error_marker (name corrupt) e ++ nl ++ text2).
  { rewrite extract_text_from_pdfs_eq. cbn [map]. unfold extract_file.
    rewrite Hvalid, Hcorrupt, Hvalid2. reflexivity. }
  split; [ exact Hcorpus | ].
  split; [ rewrite extract_one; unfold extract_file; now rewrite Hvalid | ].
  split; [ rewrite extract_one; unfold extract_file; now rewrite Hvalid2 | ].
  rewrite Hcorpus. split; [ | split ].
  - intros normalized [ Hpage | Hpage ].
    + apply occurs_in_app_r. eapply read_file_page_text; eassumption.
    + do 4 apply occurs_in_app_l. eapply read_file_page_text; eassumption.
  - auto with occurs.
  - unfold error_marker. auto 8 with occurs.
Qed.

Lemma partial_failure_isolation_witness :
  @extract_text_from_pdfs (scripted construct_ok (Ok None))
    [report_pdf; corrupt_pdf; costs_pdf]
  = (file_banner (lit "report.pdf") ++ page_banner 1 ++ lit "Revenue: $5M")
      ++ nl ++ error_marker (lit "corrupt.pdf") (lit "Failed to open stream") ++ nl
      ++ (file_banner (lit "costs.pdf") ++ page_banner 1 ++ lit "Costs <= $2M").
Proof.
  exact (proj1 (@partial_failure_isolation (scripted construct_ok (Ok None))
                  report_pdf corrupt_pdf costs_pdf _ _ _ eq_refl eq_refl eq_refl)).
Defined.

(** C10. When a page of a document raises after pages of it were read, the
    document contributes its error marker and nothing else to the corpus,
    neither its file banner nor the text of a page; the other documents
    contribute what they contribute without it. *)
Theorem failed_document_leaves_only_marker {ext : Externals}
  (before after : list UploadedFile) (file : UploadedFile) (data : bytes)
  (good rest : list Page) (bad : Page) (e : str)
  (Hread : read file = Ok data)
  (Hopen : fitz_open data = Ok (good ++ bad :: rest))
  (Hgood : Forall (fun page => exists text, get_text page = Ok text) good)
  (Hbad : get_text bad = Raise e) :
  extract_file file = error_marker (name file) e
  /\ extract_text_from_pdfs (before ++ file :: after)
     = join nl (map extract_file before
                  ++ error_marker (name file) e :: map extract_file after)
  /\ extract_text_from_pdfs (before ++ after)
     = join nl (map extract_file before ++ map extract_file after).
Proof.
  assert (Hfile : extract_file file = error_marker (name file) e).
  { unfold extract_file, read_file. rewrite Hread. cbn [bind]. rewrite Hopen. cbn [bind].
    now rewrite (@read_pages_raise ext good bad rest e Hgood Hbad). }
  split; [ exact Hfile | ].
  rewrite !extract_text_from_pdfs_eq, !map_app. cbn [map]. now rewrite Hfile.
Qed.

Lemma failed_document_leaves_only_marker_witness :
  @extract_text_from_pdfs (scripted construct_ok (Ok None))
    ([report_pdf] ++ torn_pdf :: [costs_pdf])
  = join nl
      (map (@extract_file (scripted construct_ok (Ok None))) [report_pdf]
         ++ error_marker (lit "torn.pdf") (lit "bad page tree")
         :: map (@extract_file (scripted construct_ok (Ok None))) [costs_pdf]).
Proof.
  refine (proj1 (proj2 (@failed_document_leaves_only_marker
                          (scripted construct_ok (Ok None))
                          [report_pdf] [costs_pdf] torn_pdf [Byte.x03]
                          [page_of (lit "Intro")] [page_of (lit "Outro")]
                          {| get_text := Raise (lit "bad page tree") |}
                          (lit "bad page tree") eq_refl eq_refl _ eq_refl))).
  constructor; [ exists (lit "Intro"); reflexivity | constructor ].
Defined.

(** ** The session *)

Section Session.

Context {ext : Externals}.

Lemma extract_and_initialize_failed s uploaded_files cfg :
  loaded (snd (extract_and_initialize s uploaded_files cfg)) = false ->
  fst (extract_and_initialize s uploaded_files cfg)
  = {| messages := messages s; rlm_instance := rlm_instance s;
       pdf_context := Some (extract_text_from_pdfs uploaded_files);
       context_loaded := context_loaded s |}.
Proof.
  unfold extract_and_initialize.
  destruct (get_rlm _ _ _ _); cbn [fst snd loaded]; [ discriminate | reflexivity ].
Qed.

Lemma extract_and_initialize_loaded s uploaded_files cfg :
  loaded (snd (extract_and_initialize s uploaded_files cfg)) = true ->
  exists rlm,
    fst (extract_and_initialize s uploaded_files cfg)
    = {| messages := []; rlm_instance := Some rlm;
         pdf_context := Some (extract_text_from_pdfs uploaded_files);
         context_loaded := true |}.
Proof.
  unfold extract_and_initialize.
  destruct (get_rlm _ _ _ _) as [ rlm | e ]; cbn [fst snd loaded]; [ | discriminate ].
  intros _. now exists rlm.
Qed.

(** The two checks of the button's handler either reject the input, and
    the session is what it was, or let the run reach extraction. *)
Lemma load_button_cases s uploaded_files cfg :
  (exists msg, load_button s uploaded_files cfg = (s, st_error msg)
     /\ (uploaded_files = []
         \/ api_key cfg = [] /\ backend_display cfg <> Ollama))
  \/ (load_button s uploaded_files cfg = extract_and_initialize s uploaded_files cfg
      /\ uploaded_files <> []
      /\ (api_key cfg <> [] \/ backend_display cfg = Ollama)).
Proof.
  unfold load_button.
  destruct uploaded_files as [ | file files ]; cbn [negb].
  - left. eexists. split; [ reflexivity | now left ].
  - destruct (api_key cfg) as [ | c key ] eqn:Hkey; cbn [nonempty negb andb].
    + destruct (backend_display cfg) eqn:Hdisplay; cbn [is_ollama negb].
      * left. eexists. split; [ reflexivity | right; split; [ reflexivity | discriminate ] ].
      * left. eexists. split; [ reflexivity | right; split; [ reflexivity | discriminate ] ].
      * right. split; [ reflexivity | split; [ discriminate | now right ] ].
    + right. split; [ reflexivity | split; [ discriminate | left; discriminate ] ].
Qed.

Lemma load_button_failed s uploaded_files cfg :
  loaded (snd (load_button s uploaded_files cfg)) = false ->
  messages (fst (load_button s uploaded_files cfg)) = messages s
  /\ rlm_instance (fst (load_button s uploaded_files cfg)) = rlm_instance s
  /\ context_loaded (fst (load_button s uploaded_files cfg)) = context_loaded s.
Proof.
  destruct (load_button_cases s uploaded_files cfg) as [ (msg & -> & _) | (-> & _) ].
  - intros _. now repeat split.
  - intros Hfailed. rewrite (extract_and_initialize_failed _ _ _ Hfailed). now repeat split.
Qed.

Lemma chat_input_context_loaded s prompt :
  context_loaded (fst (chat_input s prompt)) = context_loaded s.
Proof.
  unfold chat_input.
  destruct (nonempty prompt); [ | reflexivity ].
  destruct (context_loaded s) eqn:Hloaded; cbn [negb]; [ | exact Hloaded ].
  now destruct (answer_turn _ prompt) as [ reply effects ].
Qed.

Lemma unloaded_not_ready s : unloaded s -> context_loaded s = false.
Proof.
  induction 1 as [ | s uploaded_files cfg _ IH Hfailed | s prompt _ IH ].
  - reflexivity.
  - destruct (load_button_failed _ _ _ Hfailed) as (_ & _ & ->). exact IH.
  - now rewrite chat_input_context_loaded.
Qed.

(** The reply that [answer_turn] adds, by the outcome of the engine call. *)
Lemma answer_turn_reply s prompt :
  role (fst (answer_turn s prompt)) = assistant
  /\ forall rlm, rlm_instance s = Some rlm ->
       match completion rlm (pdf_context s) (full_prompt prompt) with
       | Ok (Some answer) => content (fst (answer_turn s prompt)) = answer
       | Ok None => content (fst (answer_turn s prompt)) = FALLBACK_ANSWER
       | Raise e => content (fst (answer_turn s prompt)) = lit "Error: " ++ e
       end.
Proof.
  unfold answer_turn. split.
  - destruct (rlm_instance s) as [ rlm | ]; [ | reflexivity ].
    now destruct (completion rlm (pdf_context s) (full_prompt prompt)).
  - intros rlm ->.
    now destruct (completion rlm (pdf_context s) (full_prompt prompt)) as [ [ answer | ] | e ].
Qed.

End Session.

(** C1, as the code has it. A run of the button's handler that fails shows
    an error and leaves the history, the engine and the readiness flag as
    they were.  When the run is refused for its input (no file, or no key
    for a hosted backend) the session is exactly what it was; when it
    fails at the engine, the corpus extracted by this run is already
    stored. *)
Theorem failed_load_keeps_engine_and_history {ext : Externals}
  (s : SessionState) (uploaded_files : list UploadedFile) (cfg : Sidebar)
  (Hfailed : loaded (snd (load_button s uploaded_files cfg)) = false) :
  (exists msg, snd (load_button s uploaded_files cfg) = st_error msg)
  /\ messages (fst (load_button s uploaded_files cfg)) = messages s
  /\ rlm_instance (fst (load_button s uploaded_files cfg)) = rlm_instance s
  /\ context_loaded (fst (load_button s uploaded_files cfg)) = context_loaded s
  /\ (uploaded_files = [] \/ api_key cfg = [] /\ backend_display cfg <> Ollama ->
      fst (load_button s uploaded_files cfg) = s)
  /\ (uploaded_files <> [] -> api_key cfg <> [] \/ backend_display cfg = Ollama ->
      pdf_context (fst (load_button s uploaded_files cfg))
      = Some (extract_text_from_pdfs uploaded_files)).
Proof.
  split.
  { destruct (load_button_cases s uploaded_files cfg) as [ (msg & Hrun & _) | (Hrun & _) ].
    - rewrite Hrun. now exists msg.
    - rewrite Hrun in Hfailed |- *. unfold extract_and_initialize in *.
      destruct (get_rlm _ _ _ _) as [ rlm | e ]; [ discriminate Hfailed | ].
      eexists. reflexivity. }
  destruct (load_button_failed _ _ _ Hfailed) as (Hmessages & Hrlm & Hloaded).
  repeat (split; [ assumption | ]).
  destruct (load_button_cases s uploaded_files cfg)
    as [ (msg & Hrun & Hwhy) | (Hrun & Hfiles & Hkey) ].
  - rewrite Hrun. split; [ reflexivity | ].
    intros Hfiles Hkey. exfalso.
    destruct Hwhy as [ Hnone | (Hnokey & Hhosted) ]; [ contradiction | ].
    destruct Hkey; contradiction.
  - split.
    + intros [ Hnone | (Hnokey & Hhosted) ]; [ contradiction | ].
      destruct Hkey; contradiction.
    + intros _ _. rewrite Hrun in Hfailed |- *.
      now rewrite (extract_and_initialize_failed _ _ _ Hfailed).
Qed.

Lemma failed_load_keeps_engine_and_history_witness :
  messages (fst (load_button (earlier_sample construct_denied (Ok None))
                   [report_pdf] ollama_sidebar))
  = messages (earlier_sample construct_denied (Ok None)).
Proof.
  exact (proj1 (proj2 (@failed_load_keeps_engine_and_history
                         (scripted construct_denied (Ok None))
                         (earlier_sample construct_denied (Ok None))
                         [report_pdf] ollama_sidebar eq_refl))).
Defined.

(** C1, as the spec has it, fails when the engine cannot be constructed:
    the run shows the error, and the session now holds the corpus of the
    new upload with the engine, the history and the readiness flag of the
    earlier load; from the initial session, it holds a corpus and no
    engine. *)
Lemma failed_load_replaces_corpus :
  snd (load_button (earlier_sample construct_denied (Ok None)) [report_pdf] ollama_sidebar)
  = st_error (lit "Failed to initialize RLM: [Errno 13] Permission denied: 'logs'")
  /\ pdf_context (earlier_sample construct_denied (Ok None)) = Some (lit "old corpus")
  /\ pdf_context
       (fst (load_button (earlier_sample construct_denied (Ok None)) [report_pdf]
               ollama_sidebar))
     = Some (file_banner (lit "report.pdf") ++ page_banner 1 ++ lit "Revenue: $5M")
  /\ rlm_instance
       (fst (load_button (earlier_sample construct_denied (Ok None)) [report_pdf]
               ollama_sidebar))
     = rlm_instance (earlier_sample construct_denied (Ok None))
  /\ fst (load_button (earlier_sample construct_denied (Ok None)) [report_pdf] ollama_sidebar)
     <> earlier_sample construct_denied (Ok None)
  /\ pdf_context
       (fst (load_button (@initial_state (scripted construct_denied (Ok None)))
               [report_pdf] ollama_sidebar))
     = Some (file_banner (lit "report.pdf") ++ page_banner 1 ++ lit "Revenue: $5M")
  /\ rlm_instance
       (fst (load_button (@initial_state (scripted construct_denied (Ok None)))
               [report_pdf] ollama_sidebar))
     = None.
Proof.
  repeat split; try reflexivity.
  intros Hsame. apply (f_equal pdf_context) in Hsame.
  vm_compute in Hsame. discriminate Hsame.
Qed.

(** C2, as the code has it. A question that is not empty, asked of a ready
    session, adds the user's turn and then one turn of the assistant, and
    leaves the session ready with its corpus and engine.  The assistant's
    turn holds the engine's answer when it returns one, the empty string
    included; the fixed fallback, which is not empty, when the answer is
    [None]; and [Error: ] followed by the failure's text when the call
    raises. *)
Theorem ask_adds_user_and_assistant_turn {ext : Externals}
  (s : SessionState) (q : str)
  (Hready : context_loaded s = true) (Hq : q <> []) :
  exists reply,
    messages (fst (chat_input s q))
    = messages s ++ [ {| role := user; content := q |};
                      {| role := assistant; content := reply |} ]
    /\ context_loaded (fst (chat_input s q)) = true
    /\ rlm_instance (fst (chat_input s q)) = rlm_instance s
    /\ pdf_context (fst (chat_input s q)) = pdf_context s
    /\ (forall rlm, rlm_instance s = Some rlm ->
          match completion rlm (pdf_context s) (full_prompt q) with
          | Ok (Some answer) => reply = answer
          | Ok None => reply = FALLBACK_ANSWER
          | Raise e => reply = lit "Error: " ++ e
          end)
    /\ FALLBACK_ANSWER <> [].
Proof.
  unfold chat_input.
  destruct q as [ | c q ]; [ contradiction | ]. cbn [nonempty].
  rewrite Hready. cbn [negb].
  set (asked := append_message s {| role := user; content := c :: q |}).
  pose proof (answer_turn_reply asked (c :: q)) as (Hrole & Hreply).
  destruct (answer_turn asked (c :: q)) as [ [ who reply ] effects ].
  cbn [fst role content] in Hrole, Hreply. subst who.
  exists reply. cbn [fst append_message messages context_loaded rlm_instance pdf_context].
  subst asked. cbn [append_message messages context_loaded rlm_instance pdf_context].
  split; [ now rewrite <- app_assoc | ].
  do 3 (split; [ solve [ assumption | reflexivity ] | ]).
  split; [ exact Hreply | discriminate ].
Qed.

Lemma ask_adds_user_and_assistant_turn_witness :
  exists reply,
    messages (fst (chat_input (earlier_sample construct_ok (Ok None))
                     (lit "What was the revenue?")))
    = messages (earlier_sample construct_ok (Ok None))
        ++ [ {| role := user; content := lit "What was the revenue?" |};
             {| role := assistant; content := reply |} ].
Proof.
  destruct (@ask_adds_user_and_assistant_turn (scripted construct_ok (Ok None))
              (earlier_sample construct_ok (Ok None)) (lit "What was the revenue?")
              eq_refl ltac:(discriminate)) as (reply & Hmessages & _).
  exists reply. exact Hmessages.
Defined.

(** C2, as the spec has it, fails on an empty answer: the engine returns
    the empty string, and the assistant's turn is the empty string, not the
    fallback. *)
Lemma empty_answer_is_kept :
  messages (fst (chat_input (earlier_sample construct_ok (Ok (Some [])))
                   (lit "What was the revenue?")))
  = messages (earlier_sample construct_ok (Ok (Some [])))
      ++ [ {| role := user; content := lit "What was the revenue?" |};
           {| role := assistant; content := [] |} ]
  /\ FALLBACK_ANSWER <> [].
Proof. split; [ reflexivity | discriminate ]. Qed.

(** C4. In a session that no load has succeeded in, the chat handler
    leaves the session, and so the history, as it is, and a submitted
    question is answered by the request to load PDFs first; a load that
    succeeds leaves a history of length 0, whatever the history was. *)
Theorem ask_needs_a_load_and_load_clears_history {ext : Externals} :
  (forall s prompt,
     unloaded s ->
     fst (chat_input s prompt) = s
     /\ messages (fst (chat_input s prompt)) = messages s
     /\ (prompt <> [] ->
         snd (chat_input s prompt)
         = [st_error (lit "Please load PDFs first using the sidebar.")]))
  /\ (forall s uploaded_files cfg,
        loaded (snd (load_button s uploaded_files cfg)) = true ->
        List.length (messages (fst (load_button s uploaded_files cfg))) = 0
        /\ context_loaded (fst (load_button s uploaded_files cfg)) = true).
Proof.
  split.
  - intros s prompt Hs. apply unloaded_not_ready in Hs.
    unfold chat_input. rewrite Hs. cbn [negb].
    destruct prompt as [ | c prompt ]; cbn [nonempty fst snd].
    + repeat split. intros Hprompt. contradiction.
    + repeat split.
  - intros s uploaded_files cfg Hloaded.
    destruct (load_button_cases s uploaded_files cfg) as [ (msg & Hrun & _) | (Hrun & _) ];
      rewrite Hrun in Hloaded |- *; [ discriminate Hloaded | ].
    destruct (extract_and_initialize_loaded _ _ _ Hloaded) as (rlm & ->).
    now split.
Qed.

Lemma ask_needs_a_load_and_load_clears_history_witness :
  fst (chat_input
         (fst (load_button (@initial_state (scripted construct_denied (Ok None)))
                 [report_pdf] ollama_sidebar))
         (lit "What was the revenue?"))
  = fst (load_button (@initial_state (scripted construct_denied (Ok None)))
           [report_pdf] ollama_sidebar)
  /\ List.length
       (messages (fst (load_button (earlier_sample construct_ok (Ok None)) [report_pdf]
                         ollama_sidebar))) = 0.
Proof.
  split.
  - refine (proj1 (proj1 (@ask_needs_a_load_and_load_clears_history
                            (scripted construct_denied (Ok None))) _ _ _)).
    apply unloaded_load; [ apply unloaded_initial | reflexivity ].
  - exact (proj1 (proj2 (@ask_needs_a_load_and_load_clears_history
                           (scripted construct_ok (Ok None)))
                    (earlier_sample construct_ok (Ok None)) [report_pdf]
                    ollama_sidebar eq_refl)).
Defined.

(** C7. The instruction built for a question is the preamble followed by
    the question, and by nothing else.  The chat handler calls the engine
    with the stored corpus as [prompt] and this instruction as
    [root_prompt]: the instruction is the same whatever the corpus is, and
    a question asked of a ready session does make this call. *)
Theorem instruction_is_preamble_then_question {ext : Externals}
  (s : SessionState) (q : str) :
  full_prompt q = STRICT_QUERY_PREFIX ++ q
  /\ firstn (List.length STRICT_QUERY_PREFIX) (full_prompt q) = STRICT_QUERY_PREFIX
  /\ skipn (List.length STRICT_QUERY_PREFIX) (full_prompt q) = q
  /\ (forall context root_prompt,
        In (rlm_completion context root_prompt) (snd (chat_input s q)) ->
        context = pdf_context s /\ root_prompt = STRICT_QUERY_PREFIX ++ q)
  /\ (forall rlm,
        context_loaded s = true -> q <> [] -> rlm_instance s = Some rlm ->
        In (rlm_completion (pdf_context s) (STRICT_QUERY_PREFIX ++ q))
           (snd (chat_input s q))).
Proof.
  split; [ reflexivity | ].
  split; [ unfold full_prompt; now rewrite firstn_app, Nat.sub_diag, firstn_all, app_nil_r | ].
  split; [ unfold full_prompt; now rewrite skipn_app, Nat.sub_diag, skipn_all | ].
  unfold chat_input, answer_turn, full_prompt. split.
  - intros context root_prompt.
    destruct (nonempty q); [ | intros [] ].
    destruct (context_loaded s); cbn [negb snd];
      [ | intros [ Hin | [] ]; discriminate Hin ].
    cbn [append_message rlm_instance pdf_context].
    destruct (rlm_instance s) as [ rlm | ].
    + destruct (completion rlm (pdf_context s) (STRICT_QUERY_PREFIX ++ q));
        cbn [snd In]; intros [ Hin | [ Hin | [ Hin | [] ] ] ];
        try discriminate Hin; injection Hin as <- <-; now split.
    + cbn [snd In]. intros [ Hin | [ Hin | [] ] ]; discriminate Hin.
  - intros rlm Hready Hq Hrlm.
    destruct q as [ | c q ]; [ contradiction | ]. cbn [nonempty].
    rewrite Hready. cbn [negb append_message rlm_instance pdf_context]. rewrite Hrlm.
    destruct (completion rlm (pdf_context s) (STRICT_QUERY_PREFIX ++ c :: q));
      cbn [snd In]; right; left; reflexivity.
Qed.

Lemma instruction_is_preamble_then_question_witness :
  In (rlm_completion (Some (lit "old corpus"))
        (STRICT_QUERY_PREFIX ++ lit "What is X?"))
     (snd (chat_input (earlier_sample construct_ok (Ok (Some (lit "X is 42"))))
             (lit "What is X?"))).
Proof.
  exact (proj2 (proj2 (proj2 (proj2
           (@instruction_is_preamble_then_question
              (scripted construct_ok (Ok (Some (lit "X is 42"))))
              (earlier_sample construct_ok (Ok (Some (lit "X is 42")))) (lit "What is X?")))))
           ollama_llama3 eq_refl ltac:(discriminate) eq_refl).
Defined.

(** C8, as the code has it. With Ollama chosen no check looks at the
    endpoint: whatever the endpoint is, missing or empty too, a click with
    a file builds the arguments of the engine with the endpoint as it is and
    hands them to the engine, and the run is what the engine's constructor
    makes of them: a ready session with the new corpus when it returns, its
    failure shown when it raises.  The fixed default is the text the
    endpoint field comes with: it is the endpoint when the field is left as
    it came, and a text typed in the field, the empty one too, is the
    endpoint as it is. *)
Theorem ollama_endpoint_is_passed_as_it_is {ext : Externals}
  (env : Environ) (w : Widgets) (s : SessionState)
  (file : UploadedFile) (files : list UploadedFile)
  (Hbackend : chosen_backend w = Ollama) :
  base_url (sidebar env w) = Some (text_input OLLAMA_BASE_URL (typed_base_url w))
  /\ (typed_base_url w = None -> base_url (sidebar env w) = Some OLLAMA_BASE_URL)
  /\ (forall typed, typed_base_url w = Some typed -> base_url (sidebar env w) = Some typed)
  /\ (forall cfg,
        backend_display cfg = Ollama ->
        get_rlm (backend_map (backend_display cfg)) (model_name cfg)
          (Some (api_key cfg)) (base_url cfg)
        = RLM_new (ollama_args cfg)
        /\ dict_get (backend_kwargs (ollama_args cfg)) (lit "base_url") = Some (base_url cfg)
        /\ load_button s (file :: files) cfg
           = match RLM_new (ollama_args cfg) with
             | Ok rlm =>
                 ({| messages := []; rlm_instance := Some rlm;
                     pdf_context := Some (extract_text_from_pdfs (file :: files));
                     context_loaded := true |},
                  st_success_loaded (List.length (file :: files))
                    (List.length (extract_text_from_pdfs (file :: files))))
             | Raise e =>
                 ({| messages := messages s; rlm_instance := rlm_instance s;
                     pdf_context := Some (extract_text_from_pdfs (file :: files));
                     context_loaded := context_loaded s |},
                  st_error (lit "Failed to initialize RLM: " ++ e))
             end).
Proof.
  assert (Hfield : base_url (sidebar env w)
                   = Some (text_input OLLAMA_BASE_URL (typed_base_url w))).
  { unfold sidebar. now rewrite Hbackend. }
  split; [ exact Hfield | ].
  split; [ intros Hnone; now rewrite Hfield, Hnone | ].
  split; [ intros typed Htyped; now rewrite Hfield, Htyped | ].
  intros cfg Hollama.
  assert (Hargs : get_rlm (backend_map (backend_display cfg)) (model_name cfg)
                    (Some (api_key cfg)) (base_url cfg)
                  = RLM_new (ollama_args cfg)).
  { unfold get_rlm, get_rlm_args, get_backend_kwargs, ollama_args. rewrite Hollama.
    cbn [backend_map truthy]. now destruct (nonempty (api_key cfg)). }
  split; [ exact Hargs | ].
  split; [ reflexivity | ].
  unfold load_button. cbn [negb]. rewrite Hollama. cbn [is_ollama negb].
  rewrite andb_false_r. unfold extract_and_initialize.
  rewrite Hargs. now destruct (RLM_new (ollama_args cfg)).
Qed.

Lemma ollama_endpoint_is_passed_as_it_is_witness :
  base_url (sidebar no_keys ollama_untouched) = Some (lit "http://localhost:11434/v1")
  /\ base_url (sidebar no_keys ollama_cleared) = Some [].
Proof.
  split.
  - exact (proj1 (proj2 (@ollama_endpoint_is_passed_as_it_is
                           (scripted construct_ok (Ok None))
                           no_keys ollama_untouched initial_state report_pdf [] eq_refl))
             eq_refl).
  - exact (proj1 (proj2 (proj2 (@ollama_endpoint_is_passed_as_it_is
                                  (scripted construct_ok (Ok None))
                                  no_keys ollama_cleared initial_state report_pdf [] eq_refl)))
             [] eq_refl).
Defined.

(** C8, as the spec has it, fails where the endpoint is missing: with the
    endpoint field emptied the endpoint is the empty string, not the
    default, the click succeeds and the engine holds the empty endpoint;
    and [get_rlm] called without an endpoint passes [None]. *)
Lemma missing_endpoint_is_not_defaulted :
  base_url (sidebar no_keys ollama_cleared) = Some []
  /\ context_loaded
       (fst (load_button (@initial_state (scripted construct_ok (Ok None))) [report_pdf]
               (sidebar no_keys ollama_cleared))) = true
  /\ option_map (fun args : RLMArgs => dict_get (backend_kwargs args) (lit "base_url"))
       (rlm_instance
          (fst (load_button (@initial_state (scripted construct_ok (Ok None))) [report_pdf]
                  (sidebar no_keys ollama_cleared))))
     = Some (Some (Some []))
  /\ dict_get (get_backend_kwargs (lit "vllm") (lit "llama3") (Some (lit "ollama")) None)
       (lit "base_url")
     = Some None
  /\ OLLAMA_BASE_URL <> [].
Proof. repeat split; try reflexivity. discriminate. Qed.

(** C9. With OpenAI, the model [gpt-x], no key and no endpoint, the handler
    refuses the run with a message that names OpenAI, and the session is
    as it was; the message names the backend for every hosted backend, and
    the key is absent when the environment gives none and the key field is
    left empty.  With the key [sk-...] the run is not refused: the
    arguments, holding the model and the key, go to the engine, and when
    the engine is constructed the session is ready. *)
Theorem hosted_backend_needs_key {ext : Externals}
  (s : SessionState) (file : UploadedFile) (files : list UploadedFile) :
  load_button s (file :: files) (openai_gpt_x [])
  = (s, st_error (lit "Please enter your OpenAI API Key."))
  /\ (forall cfg,
        api_key cfg = [] -> backend_display cfg <> Ollama ->
        load_button s (file :: files) cfg
        = (s, st_error (lit "Please enter your " ++ display_name (backend_display cfg)
                          ++ lit " API Key.")))
  /\ (forall w,
        chosen_backend w = OpenAI -> typed_key w = None \/ typed_key w = Some [] ->
        api_key (sidebar no_keys w) = [])
  /\ load_button s (file :: files) (openai_gpt_x (lit "sk-..."))
     = extract_and_initialize s (file :: files) (openai_gpt_x (lit "sk-..."))
  /\ get_rlm (backend_map OpenAI) (lit "gpt-x") (Some (lit "sk-...")) None
     = RLM_new (openai_gpt_x_args (lit "sk-..."))
  /\ (forall rlm,
        RLM_new (openai_gpt_x_args (lit "sk-...")) = Ok rlm ->
        load_button s (file :: files) (openai_gpt_x (lit "sk-..."))
        = ({| messages := []; rlm_instance := Some rlm;
              pdf_context := Some (extract_text_from_pdfs (file :: files));
              context_loaded := true |},
           st_success_loaded (List.length (file :: files))
             (List.length (extract_text_from_pdfs (file :: files))))).
Proof.
  split; [ reflexivity | ].
  split.
  { intros cfg Hkey Hhosted. unfold load_button. rewrite Hkey. cbn [negb nonempty andb].
    destruct (backend_display cfg); [ reflexivity | reflexivity | contradiction ]. }
  split.
  { intros w Hbackend Hkey. unfold sidebar. rewrite Hbackend. cbn [api_key].
    unfold key_field. cbn [DEFAULT_OPENAI_KEY no_keys OPENAI_API_KEY getenv nonempty].
    now destruct Hkey as [ -> | -> ]. }
  split; [ reflexivity | ].
  split; [ reflexivity | ].
  intros rlm Hrlm.
  change (load_button s (file :: files) (openai_gpt_x (lit "sk-...")))
    with (extract_and_initialize s (file :: files) (openai_gpt_x (lit "sk-..."))).
  unfold extract_and_initialize.
  change (get_rlm (backend_map (backend_display (openai_gpt_x (lit "sk-..."))))
            (model_name (openai_gpt_x (lit "sk-...")))
            (Some (api_key (openai_gpt_x (lit "sk-..."))))
            (base_url (openai_gpt_x (lit "sk-..."))))
    with (RLM_new (openai_gpt_x_args (lit "sk-..."))).
  now rewrite Hrlm.
Qed.

Lemma hosted_backend_needs_key_witness :
  load_button (earlier_sample construct_ok (Ok None)) [report_pdf] (openai_gpt_x [])
  = (earlier_sample construct_ok (Ok None), st_error (lit "Please enter your OpenAI API Key."))
  /\ context_loaded
       (fst (load_button (@initial_state (scripted construct_ok (Ok None)))
               [report_pdf] (openai_gpt_x (lit "sk-...")))) = true.
Proof.
  split.
  - exact (proj1 (@hosted_backend_needs_key (scripted construct_ok (Ok None))
                    (earlier_sample construct_ok (Ok None)) report_pdf [])).
  - rewrite (proj2 (proj2 (proj2 (proj2 (proj2
               (@hosted_backend_needs_key (scripted construct_ok (Ok None))
                  initial_state report_pdf [])))))
               (openai_gpt_x_args (lit "sk-...")) eq_refl).
    reflexivity.
Defined.

(** * Further properties *)

(** ** The substitution table and the fixed points of the normalizer *)

Lemma flat_map_singleton (text : str) : flat_map (fun c => [c]) text = text.
Proof.
  induction text as [ | c text IH ]; [ reflexivity | ].
  cbn [flat_map app]. now rewrite IH.
Qed.

Lemma lookup_replacement_ascii table c :
  Forall (fun kv => (128 <= fst kv)%N) table -> (c < 128)%N ->
  lookup_replacement table c = [c].
Proof.
  intros Hkeys Hc. induction Hkeys as [ | [ key replacement ] table Hkey _ IH ];
    [ reflexivity | ].
  cbn [lookup_replacement fst] in *.
  destruct (N.eqb_spec c key); [ lia | exact IH ].
Qed.

Lemma flat_map_lookup_ascii table text :
  Forall (fun kv => (128 <= fst kv)%N) table -> is_ascii text ->
  flat_map (lookup_replacement table) text = text.
Proof.
  intros Hkeys. induction 1 as [ | c text Hc _ IH ]; [ reflexivity | ].
  cbn [flat_map]. now rewrite IH, lookup_replacement_ascii.
Qed.

(** A loop of [replace] over a table whose keys are not ASCII and whose
    replacements are is one pass over the text. *)
Lemma fold_replace_one_pass table :
  Forall (fun kv => (128 <= fst kv)%N /\ is_ascii (snd kv)) table ->
  forall text,
    fold_left (fun text kv => replace (fst kv) (snd kv) text) table text
    = flat_map (lookup_replacement table) text.
Proof.
  induction 1 as [ | [ key replacement ] table (Hkey & Hrepl) Htable IH ]; intros text.
  - cbn [fold_left]. now rewrite flat_map_singleton.
  - cbn [fold_left fst snd] in *. rewrite IH. unfold replace.
    assert (Hkeys : Forall (fun kv => (128 <= fst kv)%N) table).
    { eapply Forall_impl; [ | exact Htable ]. now intros kv (Hk & _). }
    induction text as [ | c text IHtext ]; [ reflexivity | ].
    cbn [flat_map lookup_replacement]. rewrite flat_map_app, IHtext. f_equal.
    destruct (N.eqb_spec c key).
    + now apply flat_map_lookup_ascii.
    + cbn [flat_map]. now rewrite app_nil_r.
Qed.

Lemma replacements_shape :
  Forall (fun kv => (128 <= fst kv)%N /\ is_ascii (snd kv)) replacements.
Proof. repeat constructor; cbn; lia. Qed.

Lemma substitute_lookup text :
  substitute text = flat_map (lookup_replacement replacements) text.
Proof. unfold substitute. apply (fold_replace_one_pass replacements_shape). Qed.

(** X1. The loop over the substitution table is one pass over the text:
    each character that is a key becomes its replacement, every other
    character stays, and no replacement is replaced again; so the
    substitution of a concatenation is the concatenation of the
    substitutions. *)
Theorem substitute_one_pass (text more : str) :
  substitute text = flat_map (lookup_replacement replacements) text
  /\ substitute (text ++ more) = substitute text ++ substitute more.
Proof.
  rewrite !substitute_lookup. split; [ reflexivity | apply flat_map_app ].
Qed.

Lemma Ok_inj (A : Type) (a b : A) : Ok a = Ok b -> a = b.
Proof. intros Hab. now injection Hab. Qed.

(** X2. Where NFKC leaves ASCII strings as they are, the strings that
    [normalize_text] returns unchanged are the ASCII strings. *)
Theorem normalize_text_fixed_points {ext : Externals} (Hnfkc : fixes_ascii nfkc) (s : str) :
  normalize_text s = Ok s <-> is_ascii s.
Proof.
  split.
  - rewrite normalize_text_eq. intros Hfixed. apply Ok_inj in Hfixed.
    rewrite <- Hfixed. apply is_ascii_placeholder.
  - now apply normalize_text_fixes_ascii.
Qed.

Lemma normalize_text_fixed_points_witness :
  @normalize_text (scripted construct_ok (Ok None)) (lit "Revenue <= $5M")
  = Ok (lit "Revenue <= $5M")
  <-> is_ascii (lit "Revenue <= $5M").
Proof.
  exact (@normalize_text_fixed_points (scripted construct_ok (Ok None))
           nfkc_sample_fixes_ascii (lit "Revenue <= $5M")).
Defined.

Lemma lookup_replacement_length table c :
  Forall (fun kv => 1 <= List.length (snd kv) <= 6) table ->
  1 <= List.length (lookup_replacement table c) <= 6.
Proof.
  induction 1 as [ | [ key replacement ] table Hlen _ IH ]; [ cbn; lia | ].
  cbn [lookup_replacement snd] in *. now destruct (c =? key)%N.
Qed.

Lemma replacements_lengths :
  Forall (fun kv => 1 <= List.length (snd kv) <= 6) replacements.
Proof. repeat constructor; cbn; lia. Qed.

(** X3. The normalizer deletes nothing after NFKC, and makes of a
    character at most six: its result has at least as many characters as
    the NFKC form of the text, and at most six times as many. *)
Theorem normalize_text_length {ext : Externals} (s : str) :
  exists t,
    normalize_text s = Ok t
    /\ List.length (nfkc s) <= List.length t <= 6 * List.length (nfkc s).
Proof.
  exists (map ascii_or_placeholder (substitute (nfkc s))).
  split; [ apply normalize_text_eq | ].
  rewrite length_map, substitute_lookup.
  induction (nfkc s) as [ | c text IH ]; [ cbn; lia | ].
  cbn [flat_map]. rewrite length_app. cbn [List.length].
  pose proof (lookup_replacement_length c replacements_lengths). lia.
Qed.

(** ** The extractor: which pages are kept, and where *)

Lemma lstrip_visible text : nonempty (lstrip text) = existsb visible text.
Proof.
  induction text as [ | c text IH ]; [ reflexivity | ].
  cbn [lstrip existsb]. unfold visible at 1.
  destruct (isspace c); [ exact IH | reflexivity ].
Qed.

Lemma existsb_lstrip text : existsb visible (lstrip text) = existsb visible text.
Proof.
  induction text as [ | c text IH ]; [ reflexivity | ].
  cbn [lstrip]. destruct (isspace c) eqn:Hc; [ | reflexivity ].
  cbn [existsb]. unfold visible at 2. now rewrite Hc.
Qed.

Lemma nonempty_rev (text : str) : nonempty (rev text) = nonempty text.
Proof.
  destruct text as [ | c text ]; [ reflexivity | ].
  cbn [rev nonempty]. now destruct (rev text).
Qed.

Lemma existsb_visible_rev text : existsb visible (rev text) = existsb visible text.
Proof.
  induction text as [ | c text IH ]; [ reflexivity | ].
  cbn [rev existsb]. rewrite existsb_app, IH. cbn [existsb].
  rewrite orb_false_r. apply orb_comm.
Qed.

Lemma strip_visible text : nonempty (strip text) = existsb visible text.
Proof.
  unfold strip.
  now rewrite nonempty_rev, lstrip_visible, existsb_visible_rev, existsb_lstrip.
Qed.

(** X4. The test [if text.strip()] keeps a page exactly when its text has
    a character that is not white space; a page of white space only adds
    nothing to the text of its file, and the pages after it are read as
    they would be without it, with their own numbers. *)
Theorem page_kept_iff_visible {ext : Externals}
  (page : Page) (rest : Document) (text : str) (page_num : nat) (file_text : list str)
  (Hpage : get_text page = Ok text) :
  nonempty (strip text) = existsb visible text
  /\ (existsb visible text = false ->
      read_pages page_num (page :: rest) file_text = read_pages (S page_num) rest file_text)
  /\ (existsb visible text = true ->
      exists normalized,
        normalize_text text = Ok normalized
        /\ read_pages page_num (page :: rest) file_text
           = read_pages (S page_num) rest
               (file_text ++ [page_banner page_num; normalized])).
Proof.
  split; [ apply strip_visible | ].
  cbn [read_pages]. rewrite Hpage. cbn [bind]. rewrite strip_visible.
  split; intros ->; [ reflexivity | ].
  eexists. split; [ apply normalize_text_eq | ].
  now rewrite normalize_text_eq.
Qed.

Lemma page_kept_iff_visible_witness :
  @read_pages (scripted construct_ok (Ok None)) 1
    [page_of (lit "   "); page_of (lit "Outro")] []
  = @read_pages (scripted construct_ok (Ok None)) 2 [page_of (lit "Outro")] [].
Proof.
  exact (proj1 (proj2 (@page_kept_iff_visible (scripted construct_ok (Ok None))
                         (page_of (lit "   ")) [page_of (lit "Outro")] (lit "   ") 1 []
                         eq_refl)) eq_refl).
Defined.

Section Pages.

Context {ext : Externals}.

Lemma read_pages_returns doc :
  Forall (fun page => exists text, get_text page = Ok text) doc ->
  forall page_num file_text, exists out, read_pages page_num doc file_text = Ok out.
Proof.
  induction 1 as [ | page doc (text & Hpage) _ IH ]; intros page_num file_text.
  - now exists file_text.
  - cbn [read_pages]. rewrite Hpage. cbn [bind].
    destruct (nonempty (strip text)); [ | apply IH ].
    rewrite normalize_text_eq. cbn [bind]. apply IH.
Qed.

Lemma read_pages_prefix doc : forall page_num file_text out,
  read_pages page_num doc file_text = Ok out -> exists more, out = file_text ++ more.
Proof.
  intros page_num file_text out Hout.
  destruct (read_pages_extends _ _ _ Hout) as (more & -> & _). now exists more.
Qed.

(** The page at position [i] of the part of the document still to read is
    written under the number [page_num + i], its text right after its
    banner. *)
Lemma read_pages_nth doc : forall page_num file_text out i page text normalized,
  read_pages page_num doc file_text = Ok out ->
  nth_error doc i = Some page ->
  get_text page = Ok text ->
  nonempty (strip text) = true ->
  normalize_text text = Ok normalized ->
  exists before after,
    out = file_text ++ before ++ [page_banner (page_num + i); normalized] ++ after.
Proof.
  induction doc as [ | first doc IH ];
    intros page_num file_text out i page text normalized Hout Hnth Hpage Hkept Hnorm.
  - now destruct i.
  - cbn [read_pages] in Hout. destruct i as [ | i ].
    + injection Hnth as ->. rewrite Hpage in Hout. cbn [bind] in Hout.
      rewrite Hkept, Hnorm in Hout. cbn [bind] in Hout.
      destruct (read_pages_prefix _ _ _ Hout) as (more & ->).
      exists [], more. rewrite Nat.add_0_r, <- app_assoc. reflexivity.
    + cbn [nth_error] in Hnth.
      destruct (get_text first) as [ text' | e ]; [ | discriminate ].
      cbn [bind] in Hout. rewrite Nat.add_succ_r, <- Nat.add_succ_l.
      destruct (nonempty (strip text')).
      * destruct (normalize_text text') as [ normalized' | e ]; [ | discriminate ].
        cbn [bind] in Hout.
        destruct (IH _ _ _ _ _ _ _ Hout Hnth Hpage Hkept Hnorm) as (before & after & ->).
        exists (page_banner page_num :: normalized' :: before), after.
        now rewrite <- app_assoc.
      * exact (IH _ _ _ _ _ _ _ Hout Hnth Hpage Hkept Hnorm).
Qed.

Lemma occurs_in_middle (before after : list str) (a b : str) (file_text : list str) :
  occurs_in (a ++ b) (List.concat (file_text ++ before ++ [a; b] ++ after)).
Proof.
  exists (List.concat file_text ++ List.concat before), (List.concat after).
  rewrite !concat_app. cbn [List.concat]. rewrite app_nil_r, <- !app_assoc. reflexivity.
Qed.

End Pages.

(** X5. A file whose pages are all read gives a text that starts with its
    file banner, and every page with a visible character stands in it
    under its position in the document, counted from 1 with the blank
    pages: the page banner of that number, followed at once by the
    normalized text of the page. *)
Theorem readable_file_numbers_pages_by_position {ext : Externals}
  (file : UploadedFile) (data : bytes) (doc : Document)
  (Hread : read file = Ok data)
  (Hopen : fitz_open data = Ok doc)
  (Hpages : Forall (fun page => exists text, get_text page = Ok text) doc) :
  exists out,
    read_file file = Ok out
    /\ extract_text_from_pdfs [file] = out
    /\ (exists rest, out = file_banner (name file) ++ rest)
    /\ (forall i page text,
          nth_error doc i = Some page -> get_text page = Ok text ->
          existsb visible text = true ->
          exists normalized,
            normalize_text text = Ok normalized
            /\ occurs_in (page_banner (S i) ++ normalized) out).
Proof.
  destruct (read_pages_returns Hpages 1 [file_banner (name file)]) as (file_text & Hout).
  assert (Hfile : read_file file = Ok (join [] file_text)).
  { unfold read_file. rewrite Hread. cbn [bind]. rewrite Hopen. cbn [bind].
    now rewrite Hout. }
  exists (join [] file_text). split; [ exact Hfile | ].
  split; [ rewrite extract_one; unfold extract_file; now rewrite Hfile | ].
  rewrite join_empty_sep. split.
  - destruct (read_pages_prefix _ _ _ Hout) as (more & ->).
    exists (List.concat more). reflexivity.
  - intros i page text Hnth Hpage Hvisible.
    exists (map ascii_or_placeholder (substitute (nfkc text))).
    split; [ apply normalize_text_eq | ].
    rewrite <- strip_visible in Hvisible.
    edestruct read_pages_nth as (before & after & Hplace);
      [ exact Hout | exact Hnth | exact Hpage | exact Hvisible | apply normalize_text_eq | ].
    rewrite Hplace. apply occurs_in_middle.
Qed.

Lemma readable_file_numbers_pages_by_position_witness :
  exists out,
    @read_file (scripted construct_ok (Ok None)) report_pdf = Ok out
    /\ @extract_text_from_pdfs (scripted construct_ok (Ok None)) [report_pdf] = out
    /\ (exists rest, out = file_banner (lit "report.pdf") ++ rest).
Proof.
  destruct (@readable_file_numbers_pages_by_position (scripted construct_ok (Ok None))
              report_pdf [Byte.x01] [page_of (lit "Revenue: $5M"); page_of (lit "   ")]
              eq_refl eq_refl) as (out & Hfile & Hone & Hbanner & _).
  - repeat constructor; eexists; reflexivity.
  - exists out. now repeat split.
Defined.

(** ** The extractor: the batch *)

Lemma join_app sep (parts1 parts2 : list str) :
  parts1 <> [] -> parts2 <> [] ->
  join sep (parts1 ++ parts2) = join sep parts1 ++ sep ++ join sep parts2.
Proof.
  intros Hparts1 Hparts2.
  induction parts1 as [ | p [ | q parts1 ] IH ]; [ contradiction | | ].
  - destruct parts2 as [ | q parts2 ]; [ contradiction | reflexivity ].
  - change ((p :: q :: parts1) ++ parts2) with (p :: q :: parts1 ++ parts2).
    rewrite !join_cons. change (q :: parts1 ++ parts2) with ((q :: parts1) ++ parts2).
    rewrite IH by discriminate. now rewrite <- !app_assoc.
Qed.

Lemma occurs_in_join sep part parts : In part parts -> occurs_in part (join sep parts).
Proof.
  induction parts as [ | p [ | q parts ] IH ]; [ intros [] | | ].
  - intros [ -> | [] ]. apply occurs_in_refl.
  - rewrite join_cons. intros [ -> | Hin ]; auto with occurs.
Qed.

Lemma occurs_in_trans a b c : occurs_in a b -> occurs_in b c -> occurs_in a c.
Proof.
  intros (before & after & ->) (before' & after' & ->).
  exists (before' ++ before), (after ++ after'). now rewrite <- !app_assoc.
Qed.

Lemma is_ascii_app a b : is_ascii (a ++ b) <-> is_ascii a /\ is_ascii b.
Proof. apply Forall_app. Qed.

Lemma is_ascii_occurs part whole : occurs_in part whole -> is_ascii whole -> is_ascii part.
Proof.
  intros (before & after & ->) Hwhole.
  apply is_ascii_app in Hwhole as (_ & Hrest). now apply is_ascii_app in Hrest.
Qed.

Lemma is_ascii_join sep parts :
  is_ascii sep -> Forall is_ascii parts -> is_ascii (join sep parts).
Proof.
  intros Hsep. induction 1 as [ | p parts Hp Hparts IH ]; [ constructor | ].
  destruct parts as [ | q parts ]; [ exact Hp | ].
  rewrite join_cons. apply is_ascii_app. split; [ exact Hp | ].
  apply is_ascii_app. now split.
Qed.

Lemma is_ascii_concat parts : Forall is_ascii parts -> is_ascii (List.concat parts).
Proof.
  induction 1 as [ | p parts Hp _ IH ]; [ constructor | ].
  cbn [List.concat]. apply is_ascii_app. now split.
Qed.

Lemma is_ascii_digits (d : Decimal.uint) :
  is_ascii (lit (DecimalString.NilEmpty.string_of_uint d)).
Proof.
  induction d as [ | d IH | d IH | d IH | d IH | d IH | d IH | d IH | d IH | d IH | d IH ];
    [ constructor | .. ]; (constructor; [ reflexivity | exact IH ]).
Qed.

Lemma is_ascii_str_of_nat n : is_ascii (str_of_nat n).
Proof.
  unfold str_of_nat, DecimalString.NilZero.string_of_uint.
  destruct (Nat.to_uint n) eqn:Hn; try (rewrite <- Hn; apply is_ascii_digits).
  repeat constructor.
Qed.

Lemma is_ascii_rule : is_ascii rule.
Proof. apply Forall_forall. intros c Hc. apply repeat_spec in Hc. subst c. reflexivity. Qed.

Lemma is_ascii_page_banner n : is_ascii (page_banner n).
Proof.
  unfold page_banner. rewrite !is_ascii_app.
  repeat split; try apply is_ascii_str_of_nat; repeat constructor.
Qed.

Lemma is_ascii_file_banner file_name : is_ascii file_name -> is_ascii (file_banner file_name).
Proof.
  intros Hname. unfold file_banner. rewrite !is_ascii_app.
  repeat split; try apply is_ascii_rule; try assumption; repeat constructor.
Qed.

Lemma is_ascii_error_marker file_name e :
  is_ascii file_name -> is_ascii e -> is_ascii (error_marker file_name e).
Proof.
  intros Hname He. unfold error_marker. rewrite !is_ascii_app.
  repeat split; try assumption; repeat constructor.
Qed.

Section Batch.

Context {ext : Externals}.

Lemma read_pages_ascii doc : forall page_num file_text out,
  Forall is_ascii file_text ->
  read_pages page_num doc file_text = Ok out -> Forall is_ascii out.
Proof.
  induction doc as [ | page doc IH ]; intros page_num file_text out Htext Hout.
  - injection Hout as <-. exact Htext.
  - cbn [read_pages] in Hout.
    destruct (get_text page) as [ text | e ]; [ | discriminate ].
    cbn [bind] in Hout.
    destruct (nonempty (strip text)); [ | exact (IH _ _ _ Htext Hout) ].
    rewrite normalize_text_eq in Hout. cbn [bind] in Hout.
    apply (IH _ _ _) in Hout; [ exact Hout | ].
    apply Forall_app. split; [ exact Htext | ].
    apply Forall_cons; [ apply is_ascii_page_banner | ].
    apply Forall_cons; [ apply is_ascii_placeholder | apply Forall_nil ].
Qed.

(** The text of one file names it: in its file banner, or in its error
    marker. *)
Lemma extract_file_shape file :
  (exists rest, extract_file file = file_banner (name file) ++ rest)
  \/ (exists e, read_file file = Raise e /\ extract_file file = error_marker (name file) e).
Proof.
  unfold extract_file. destruct (read_file file) as [ out | e ] eqn:Hfile.
  - left. unfold read_file in Hfile.
    destruct (read file) as [ data | ]; [ | discriminate ]. cbn [bind] in Hfile.
    destruct (fitz_open data) as [ doc | ]; [ | discriminate ]. cbn [bind] in Hfile.
    destruct (read_pages 1 doc [file_banner (name file)]) as [ file_text | ] eqn:Hpages;
      [ | discriminate ].
    cbn [bind] in Hfile. apply Ok_inj in Hfile. subst out.
    destruct (read_pages_prefix _ _ _ Hpages) as (more & ->).
    rewrite join_empty_sep. exists (List.concat more). reflexivity.
  - right. now exists e.
Qed.

Lemma extract_file_names file : occurs_in (name file) (extract_file file).
Proof.
  destruct (extract_file_shape file) as [ (rest & ->) | (e & _ & ->) ].
  - unfold file_banner. rewrite <- !app_assoc. auto 10 with occurs.
  - unfold error_marker. auto 10 with occurs.
Qed.

Lemma extract_file_ascii file :
  is_ascii (name file) ->
  (forall e, read_file file = Raise e -> is_ascii e) ->
  is_ascii (extract_file file).
Proof.
  intros Hname Hfail. unfold extract_file.
  destruct (read_file file) as [ out | e ] eqn:Hfile;
    [ | apply is_ascii_error_marker; auto ].
  unfold read_file in Hfile.
  destruct (read file) as [ data | ]; [ | discriminate ]. cbn [bind] in Hfile.
  destruct (fitz_open data) as [ doc | ]; [ | discriminate ]. cbn [bind] in Hfile.
  destruct (read_pages 1 doc [file_banner (name file)]) as [ file_text | ] eqn:Hpages;
    [ | discriminate ].
  cbn [bind] in Hfile. apply Ok_inj in Hfile. subst out.
  rewrite join_empty_sep. apply is_ascii_concat.
  eapply read_pages_ascii; [ | exact Hpages ].
  apply Forall_cons; [ now apply is_ascii_file_banner | apply Forall_nil ].
Qed.

End Batch.

(** X6. The corpus of a batch made of two batches, neither empty, is the
    corpus of the first, a line feed and the corpus of the second: the
    files come in the order of the upload and the text of one file does
    not depend on the others. *)
Theorem extraction_concatenates {ext : Externals} (files1 files2 : list UploadedFile)
  (Hfiles1 : files1 <> []) (Hfiles2 : files2 <> []) :
  extract_text_from_pdfs (files1 ++ files2)
  = extract_text_from_pdfs files1 ++ nl ++ extract_text_from_pdfs files2.
Proof.
  rewrite !extract_text_from_pdfs_eq, map_app.
  apply join_app; intros Hnil; apply map_eq_nil in Hnil; contradiction.
Qed.

Lemma extraction_concatenates_witness :
  @extract_text_from_pdfs (scripted construct_ok (Ok None))
    ([report_pdf; corrupt_pdf] ++ [costs_pdf])
  = @extract_text_from_pdfs (scripted construct_ok (Ok None)) [report_pdf; corrupt_pdf]
      ++ nl ++ @extract_text_from_pdfs (scripted construct_ok (Ok None)) [costs_pdf].
Proof.
  exact (@extraction_concatenates (scripted construct_ok (Ok None))
           [report_pdf; corrupt_pdf] [costs_pdf] ltac:(discriminate) ltac:(discriminate)).
Defined.

(** X7. No file of a batch is left out of the corpus: the corpus holds
    what the file gives when it is uploaded alone, which is its file banner
    followed by its pages or, when reading it raised, its error marker;
    either way the name of the file occurs in the corpus. *)
Theorem every_file_is_represented {ext : Externals}
  (files : list UploadedFile) (file : UploadedFile) (Hfile : In file files) :
  occurs_in (extract_text_from_pdfs [file]) (extract_text_from_pdfs files)
  /\ occurs_in (name file) (extract_text_from_pdfs files)
  /\ ((exists rest, extract_text_from_pdfs [file] = file_banner (name file) ++ rest)
      \/ (exists e, read_file file = Raise e
                    /\ extract_text_from_pdfs [file] = error_marker (name file) e)).
Proof.
  rewrite extract_one, extract_text_from_pdfs_eq.
  assert (Hpart : occurs_in (extract_file file) (join nl (map extract_file files))).
  { apply occurs_in_join, in_map, Hfile. }
  split; [ exact Hpart | ].
  split; [ exact (occurs_in_trans (extract_file_names file) Hpart) | ].
  apply extract_file_shape.
Qed.

Lemma every_file_is_represented_witness :
  occurs_in (lit "corrupt.pdf")
    (@extract_text_from_pdfs (scripted construct_ok (Ok None))
       [report_pdf; corrupt_pdf; costs_pdf]).
Proof.
  exact (proj1 (proj2 (@every_file_is_represented (scripted construct_ok (Ok None))
                         [report_pdf; corrupt_pdf; costs_pdf] corrupt_pdf
                         (or_intror (or_introl eq_refl))))).
Defined.

(** X8. Only the text of the pages is normalized: the names of the files
    and the texts of the failures are written as they are.  When the texts
    of the failures are ASCII, the corpus is ASCII exactly when the names of
    all the files are. *)
Theorem corpus_ascii_iff_names_ascii {ext : Externals} (files : list UploadedFile)
  (Hfail : forall file e, In file files -> read_file file = Raise e -> is_ascii e) :
  is_ascii (extract_text_from_pdfs files)
  <-> Forall (fun file => is_ascii (name file)) files.
Proof.
  rewrite extract_text_from_pdfs_eq. split.
  - intros Hcorpus. apply Forall_forall. intros file Hfile.
    apply (is_ascii_occurs (whole := join nl (map extract_file files))); [ | exact Hcorpus ].
    apply (occurs_in_trans (extract_file_names file)).
    apply occurs_in_join, in_map, Hfile.
  - intros Hnames. apply is_ascii_join; [ repeat constructor | ].
    apply Forall_map, Forall_forall. intros file Hfile.
    apply extract_file_ascii.
    + revert file Hfile. now apply Forall_forall.
    + intros e. now apply Hfail.
Qed.

Lemma corpus_ascii_iff_names_ascii_witness :
  is_ascii (@extract_text_from_pdfs (scripted construct_ok (Ok None))
              [report_pdf; corrupt_pdf; costs_pdf])
  <-> Forall (fun file => is_ascii (name file)) [report_pdf; corrupt_pdf; costs_pdf].
Proof.
  apply (@corpus_ascii_iff_names_ascii (scripted construct_ok (Ok None))).
  intros file e [ <- | [ <- | [ <- | [] ] ] ]; try discriminate.
  intros He. vm_compute in He. injection He as <-. repeat constructor.
Defined.

(** ** The arguments of the engine *)

Lemma str_eqb_eq a b : str_eqb a b = true <-> a = b.
Proof. unfold str_eqb. destruct (list_eq_dec N.eq_dec a b); split; congruence. Qed.

Lemma str_eqb_neq a b : str_eqb a b = false <-> a <> b.
Proof. unfold str_eqb. destruct (list_eq_dec N.eq_dec a b); split; congruence. Qed.

(** X9. Which arguments [get_rlm] passes depends on the backend alone:
    the model name always; the endpoint for [vllm] and for no other
    backend; the key for [vllm], [openai] and [gemini], and for no other
    backend, whose key is dropped. *)
Theorem backend_kwargs_keys (backend model_name : str) (api_key base_url : option str) :
  dict_get (get_backend_kwargs backend model_name api_key base_url) (lit "model_name")
  = Some (Some model_name)
  /\ (backend = lit "vllm" ->
      dict_get (get_backend_kwargs backend model_name api_key base_url) (lit "base_url")
      = Some base_url)
  /\ (backend <> lit "vllm" ->
      dict_get (get_backend_kwargs backend model_name api_key base_url) (lit "base_url")
      = None)
  /\ (backend = lit "vllm" \/ backend = lit "openai" \/ backend = lit "gemini" ->
      exists key,
        dict_get (get_backend_kwargs backend model_name api_key base_url) (lit "api_key")
        = Some key)
  /\ (backend <> lit "vllm" -> backend <> lit "openai" -> backend <> lit "gemini" ->
      get_backend_kwargs backend model_name api_key base_url
      = [(lit "model_name", Some model_name)]).
Proof.
  unfold get_backend_kwargs.
  destruct (str_eqb backend (lit "vllm")) eqn:Hvllm;
    [ | destruct (str_eqb backend (lit "openai")) eqn:Hopenai;
        [ | destruct (str_eqb backend (lit "gemini")) eqn:Hgemini ] ].
  - apply str_eqb_eq in Hvllm.
    repeat split; try reflexivity; try (intros; contradiction).
    intros _. eexists. reflexivity.
  - apply str_eqb_neq in Hvllm. apply str_eqb_eq in Hopenai.
    repeat split; try reflexivity; try (intros; contradiction).
    intros _. eexists. reflexivity.
  - apply str_eqb_neq in Hvllm. apply str_eqb_neq in Hopenai. apply str_eqb_eq in Hgemini.
    repeat split; try reflexivity; try (intros; contradiction).
    intros _. eexists. reflexivity.
  - apply str_eqb_neq in Hvllm. apply str_eqb_neq in Hopenai. apply str_eqb_neq in Hgemini.
    repeat split; try reflexivity; try (intros; contradiction).
    intros [ Hb | [ Hb | Hb ] ]; contradiction.
Qed.

Lemma backend_kwargs_keys_witness :
  dict_get (get_backend_kwargs (lit "vllm") (lit "llama3") None (Some OLLAMA_BASE_URL))
    (lit "base_url")
  = Some (Some OLLAMA_BASE_URL)
  /\ get_backend_kwargs (lit "anthropic") (lit "m") (Some (lit "key")) None
     = [(lit "model_name", Some (lit "m"))].
Proof.
  split.
  - exact (proj1 (proj2 (backend_kwargs_keys (lit "vllm") (lit "llama3") None
                           (Some OLLAMA_BASE_URL))) eq_refl).
  - apply (proj2 (proj2 (proj2 (proj2
             (backend_kwargs_keys (lit "anthropic") (lit "m") (Some (lit "key")) None)))));
      discriminate.
Defined.

(** X10. For [vllm] the key that reaches the engine is never missing and
    never empty: it is the given key when there is one, and [ollama]
    otherwise.  For [openai] and [gemini] the key is passed as it is, a
    missing or empty one too: [get_rlm] checks nothing. *)
Theorem backend_kwargs_key_value (backend model_name : str) (api_key base_url : option str) :
  (backend = lit "vllm" ->
   exists key,
     dict_get (get_backend_kwargs backend model_name api_key base_url) (lit "api_key")
     = Some (Some key)
     /\ key <> []
     /\ (truthy api_key = true -> api_key = Some key)
     /\ (truthy api_key = false -> key = lit "ollama"))
  /\ (backend = lit "openai" \/ backend = lit "gemini" ->
      dict_get (get_backend_kwargs backend model_name api_key base_url) (lit "api_key")
      = Some api_key).
Proof.
  split.
  - intros ->. unfold get_backend_kwargs.
    change (str_eqb (lit "vllm") (lit "vllm")) with true. cbv iota.
    destruct api_key as [ [ | c key ] | ]; cbn [truthy nonempty].
    + exists (lit "ollama"). repeat split; discriminate.
    + exists (c :: key). repeat split; discriminate.
    + exists (lit "ollama"). repeat split; discriminate.
  - intros [ -> | -> ]; reflexivity.
Qed.

Lemma backend_kwargs_key_value_witness :
  dict_get (get_backend_kwargs (lit "openai") (lit "gpt-x") None None) (lit "api_key")
  = Some None.
Proof.
  exact (proj2 (backend_kwargs_key_value (lit "openai") (lit "gpt-x") None None)
           (or_introl eq_refl)).
Defined.

(** ** The sidebar and the button *)

(** X11. A key found in the environment is used unless the override field
    holds a key, which then wins; the key of the sidebar is then never
    empty, whatever else is typed, and a click with a file is not refused
    for the key. *)
Theorem environment_key_and_override {ext : Externals}
  (env : Environ) (w : Widgets) (s : SessionState)
  (file : UploadedFile) (files : list UploadedFile)
  (Hkey : chosen_backend w = OpenAI /\ nonempty (DEFAULT_OPENAI_KEY env) = true
          \/ chosen_backend w = Gemini /\ nonempty (DEFAULT_GEMINI_KEY env) = true) :
  api_key (sidebar env w) <> []
  /\ (forall override_key,
        typed_override w = Some override_key -> override_key <> [] ->
        api_key (sidebar env w) = override_key)
  /\ (typed_override w = None \/ typed_override w = Some [] ->
      api_key (sidebar env w)
      = match chosen_backend w with
        | Gemini => DEFAULT_GEMINI_KEY env
        | _ => DEFAULT_OPENAI_KEY env
        end)
  /\ load_button s (file :: files) (sidebar env w)
     = extract_and_initialize s (file :: files) (sidebar env w).
Proof.
  assert (Hfield : forall default_key, nonempty default_key = true ->
            key_field default_key w <> []
            /\ (forall override_key,
                  typed_override w = Some override_key -> override_key <> [] ->
                  key_field default_key w = override_key)
            /\ (typed_override w = None \/ typed_override w = Some [] ->
                key_field default_key w = default_key)).
  { intros default_key Hdefault. unfold key_field. rewrite Hdefault.
    destruct (typed_override w) as [ [ | c override_key ] | ]; cbn [text_input nonempty].
    - repeat split; [ now destruct default_key | intros ? [= <-] Hne; contradiction ].
    - repeat split; [ discriminate | now intros ? [= <-] | ].
      intros [ Hnone | Hempty ]; discriminate.
    - repeat split; [ now destruct default_key | discriminate ]. }
  assert (Hpass : forall cfg, api_key cfg <> [] ->
            load_button s (file :: files) cfg = extract_and_initialize s (file :: files) cfg).
  { intros cfg Hcfg. unfold load_button. cbn [negb].
    destruct (api_key cfg); [ contradiction | reflexivity ]. }
  unfold sidebar in *.
  destruct Hkey as [ (-> & Hdefault) | (-> & Hdefault) ]; cbn [api_key];
    destruct (Hfield _ Hdefault) as (Hne & Hoverride & Hnone);
    (split; [ exact Hne | ]); (split; [ exact Hoverride | ]); (split; [ exact Hnone | ]);
    now apply Hpass.
Qed.

Lemma environment_key_and_override_witness :
  api_key (sidebar openai_key_in_env openai_overridden) = lit "sk-mine".
Proof.
  refine (proj1 (proj2 (@environment_key_and_override (scripted construct_ok (Ok None))
                          openai_key_in_env openai_overridden initial_state report_pdf []
                          (or_introl (conj eq_refl eq_refl))))
            (lit "sk-mine") eq_refl _).
  discriminate.
Defined.

(** X12. The sidebar keeps the chosen backend, and the endpoint reaches
    the arguments of the engine for Ollama only: for OpenAI and Gemini the
    arguments hold no endpoint, for Ollama they hold the text of the
    endpoint field. *)
Theorem endpoint_reaches_engine_for_ollama_only (env : Environ) (w : Widgets) :
  backend_display (sidebar env w) = chosen_backend w
  /\ dict_get
       (backend_kwargs
          (get_rlm_args (backend_map (backend_display (sidebar env w)))
             (model_name (sidebar env w)) (Some (api_key (sidebar env w)))
             (base_url (sidebar env w))))
       (lit "base_url")
     = match chosen_backend w with
       | Ollama => Some (Some (text_input OLLAMA_BASE_URL (typed_base_url w)))
       | _ => None
       end.
Proof. unfold sidebar. destruct (chosen_backend w); split; reflexivity. Qed.

(** X13. A click succeeds exactly when a file is uploaded, the key is
    not empty or the backend is Ollama, and [get_rlm] returns; the session
    is then ready, with the returned engine, the corpus of the uploaded
    files and an empty history. *)
Theorem load_succeeds_iff {ext : Externals}
  (s : SessionState) (uploaded_files : list UploadedFile) (cfg : Sidebar) :
  (loaded (snd (load_button s uploaded_files cfg)) = true
   <-> uploaded_files <> []
       /\ (api_key cfg <> [] \/ backend_display cfg = Ollama)
       /\ exists rlm,
            get_rlm (backend_map (backend_display cfg)) (model_name cfg)
              (Some (api_key cfg)) (base_url cfg) = Ok rlm)
  /\ (forall rlm,
        uploaded_files <> [] ->
        api_key cfg <> [] \/ backend_display cfg = Ollama ->
        get_rlm (backend_map (backend_display cfg)) (model_name cfg)
          (Some (api_key cfg)) (base_url cfg) = Ok rlm ->
        load_button s uploaded_files cfg
        = ({| messages := []; rlm_instance := Some rlm;
              pdf_context := Some (extract_text_from_pdfs uploaded_files);
              context_loaded := true |},
           st_success_loaded (List.length uploaded_files)
             (List.length (extract_text_from_pdfs uploaded_files)))).
Proof.
  destruct (load_button_cases s uploaded_files cfg)
    as [ (msg & Hrun & Hwhy) | (Hrun & Hfiles & Hkey) ]; rewrite Hrun.
  - split.
    + split; [ discriminate | ].
      intros (Hfiles & Hkey & _).
      destruct Hwhy as [ Hnone | (Hnokey & Hhosted) ]; [ contradiction | ].
      destruct Hkey; contradiction.
    + intros rlm Hfiles Hkey _.
      destruct Hwhy as [ Hnone | (Hnokey & Hhosted) ]; [ contradiction | ].
      destruct Hkey; contradiction.
  - unfold extract_and_initialize.
    destruct (get_rlm _ _ _ _) as [ rlm | e ]; cbn [snd loaded pdf_context].
    + split.
      * split; [ intros _; repeat split; try assumption; now exists rlm | reflexivity ].
      * intros rlm' _ _ [= <-]. reflexivity.
    + split; [ | discriminate ].
      split; [ discriminate | ]. now intros (_ & _ & rlm & Hrlm).
Qed.

Lemma load_succeeds_iff_witness :
  snd (load_button (earlier_sample construct_ok (Ok None)) [report_pdf] ollama_sidebar)
  = st_success_loaded 1
      (List.length (@extract_text_from_pdfs (scripted construct_ok (Ok None)) [report_pdf])).
Proof.
  rewrite (proj2 (@load_succeeds_iff (scripted construct_ok (Ok None))
                    (earlier_sample construct_ok (Ok None)) [report_pdf] ollama_sidebar)
             ollama_llama3 ltac:(discriminate) (or_intror eq_refl) eq_refl).
  reflexivity.
Defined.

(** ** The session over a sequence of interactions *)

Section Interactions.

Context {ext : Externals}.

(** What a click leaves: the session as it was, the session with the new
    corpus only, or a ready session with a new engine and no history. *)
Lemma load_button_outcome s uploaded_files cfg :
  fst (load_button s uploaded_files cfg) = s
  \/ fst (load_button s uploaded_files cfg)
     = {| messages := messages s; rlm_instance := rlm_instance s;
          pdf_context := Some (extract_text_from_pdfs uploaded_files);
          context_loaded := context_loaded s |}
  \/ exists rlm,
       fst (load_button s uploaded_files cfg)
       = {| messages := []; rlm_instance := Some rlm;
            pdf_context := Some (extract_text_from_pdfs uploaded_files);
            context_loaded := true |}.
Proof.
  destruct (load_button_cases s uploaded_files cfg) as [ (msg & -> & _) | (-> & _) ];
    [ now left | right ].
  unfold extract_and_initialize.
  destruct (get_rlm _ _ _ _) as [ rlm | e ]; [ right; now exists rlm | now left ].
Qed.

(** What a question leaves: the session as it was, or the session with
    the question and one reply added to its history. *)
Lemma chat_input_outcome s prompt :
  fst (chat_input s prompt) = s
  \/ context_loaded s = true /\ prompt <> []
     /\ exists reply,
          fst (chat_input s prompt)
          = {| messages := messages s ++ [ {| role := user; content := prompt |};
                                           {| role := assistant; content := reply |} ];
               rlm_instance := rlm_instance s;
               pdf_context := pdf_context s;
               context_loaded := true |}.
Proof.
  unfold chat_input.
  destruct prompt as [ | c prompt ]; [ now left | ]. cbn [nonempty].
  destruct (context_loaded s) eqn:Hready; cbn [negb]; [ right | now left ].
  repeat split; [ discriminate | ].
  set (asked := append_message s {| role := user; content := c :: prompt |}).
  pose proof (answer_turn_reply asked (c :: prompt)) as (Hrole & _).
  destruct (answer_turn asked (c :: prompt)) as [ [ who reply ] effects ].
  cbn [fst role] in Hrole. subst who asked. exists reply.
  unfold append_message. cbn [fst messages rlm_instance pdf_context context_loaded].
  now rewrite <- app_assoc, Hready.
Qed.

Lemma chat_input_ready s prompt :
  context_loaded s = true -> prompt <> [] ->
  exists reply,
    fst (chat_input s prompt)
    = {| messages := messages s ++ [ {| role := user; content := prompt |};
                                     {| role := assistant; content := reply |} ];
         rlm_instance := rlm_instance s;
         pdf_context := pdf_context s;
         context_loaded := true |}.
Proof.
  intros Hready Hprompt. unfold chat_input.
  destruct prompt as [ | c prompt ]; [ contradiction | ]. cbn [nonempty].
  rewrite Hready. cbn [negb].
  set (asked := append_message s {| role := user; content := c :: prompt |}).
  pose proof (answer_turn_reply asked (c :: prompt)) as (Hrole & _).
  destruct (answer_turn asked (c :: prompt)) as [ [ who reply ] effects ].
  cbn [fst role] in Hrole. subst who asked. exists reply.
  unfold append_message. cbn [fst messages rlm_instance pdf_context context_loaded].
  now rewrite <- app_assoc, Hready.
Qed.

Lemma reachable_consistent s :
  reachable s ->
  (context_loaded s = true ->
   exists rlm corpus, rlm_instance s = Some rlm /\ pdf_context s = Some corpus)
  /\ (context_loaded s = false -> messages s = [] /\ rlm_instance s = None).
Proof.
  induction 1 as [ | s ev _ (IHready & IHempty) ].
  - split; [ discriminate | now split ].
  - destruct ev as [ uploaded_files cfg | prompt ]; cbn [handle].
    + destruct (load_button_outcome s uploaded_files cfg) as [ -> | [ -> | (rlm & ->) ] ];
        cbn [context_loaded rlm_instance pdf_context messages].
      * now split.
      * split; [ | exact IHempty ].
        intros Hready. destruct (IHready Hready) as (rlm & _ & Hrlm & _).
        now exists rlm, (extract_text_from_pdfs uploaded_files).
      * split; [ | discriminate ].
        intros _. now exists rlm, (extract_text_from_pdfs uploaded_files).
    + destruct (chat_input_outcome s prompt) as [ -> | (Hready & _ & reply & ->) ];
        cbn [context_loaded rlm_instance pdf_context messages].
      * now split.
      * split; [ intros _; now apply IHready | discriminate ].
Qed.

Lemma turns_of_app turns q reply :
  turns_of (turns ++ [(q, reply)])
  = turns_of turns ++ [ {| role := user; content := q |};
                        {| role := assistant; content := reply |} ].
Proof. unfold turns_of. now rewrite flat_map_app. Qed.

(** The engine calls of the chat handler, by the state of the session. *)
Lemma chat_input_engine_calls s prompt :
  engine_calls (snd (chat_input s prompt))
  = if context_loaded s && nonempty prompt then
      match rlm_instance s with
      | Some _ => [(pdf_context s, full_prompt prompt)]
      | None => []
      end
    else [].
Proof.
  unfold chat_input, answer_turn.
  destruct (nonempty prompt); [ | now rewrite andb_false_r ].
  destruct (context_loaded s); cbn [negb andb]; [ | reflexivity ].
  cbn [append_message rlm_instance pdf_context].
  destruct (rlm_instance s) as [ rlm | ]; [ | reflexivity ].
  now destruct (completion rlm (pdf_context s) (full_prompt prompt)).
Qed.

End Interactions.

(** X14. In every session that interactions reach, a ready session has an
    engine and a corpus, and a session that is not ready has an empty
    history and no engine. *)
Theorem ready_session_has_engine_and_corpus {ext : Externals}
  (s : SessionState) (Hs : reachable s) :
  (context_loaded s = true ->
   exists rlm corpus, rlm_instance s = Some rlm /\ pdf_context s = Some corpus)
  /\ (context_loaded s = false -> messages s = [] /\ rlm_instance s = None).
Proof.
  destruct (reachable_consistent Hs) as (Hready & Hidle).
  split; [ exact Hready | exact Hidle ].
Qed.

Lemma ready_session_has_engine_and_corpus_witness :
  messages
    (handle (@initial_state (scripted construct_denied (Ok None)))
       (Load [report_pdf] ollama_sidebar)) = []
  /\ rlm_instance
       (handle (@initial_state (scripted construct_denied (Ok None)))
          (Load [report_pdf] ollama_sidebar)) = None.
Proof.
  exact (proj2 (@ready_session_has_engine_and_corpus (scripted construct_denied (Ok None)) _
                  (reachable_handle (Load [report_pdf] ollama_sidebar) reachable_initial))
           eq_refl).
Defined.

(** X15. In every session that interactions reach, the history is a
    sequence of turns, each a question of the user followed by one reply of
    the assistant: no question is without its reply and no reply without
    its question. *)
Theorem history_is_questions_and_replies {ext : Externals}
  (s : SessionState) (Hs : reachable s) :
  exists turns, messages s = turns_of turns.
Proof.
  induction Hs as [ | s ev _ (turns & IH) ].
  - now exists [].
  - destruct ev as [ uploaded_files cfg | prompt ]; cbn [handle].
    + destruct (load_button_outcome s uploaded_files cfg) as [ -> | [ -> | (rlm & ->) ] ];
        cbn [messages]; [ now exists turns | now exists turns | now exists [] ].
    + destruct (chat_input_outcome s prompt) as [ -> | (_ & _ & reply & ->) ];
        [ now exists turns | ].
      exists (turns ++ [(prompt, reply)]). cbn [messages].
      now rewrite turns_of_app, IH.
Qed.

Lemma history_is_questions_and_replies_witness :
  exists turns,
    messages
      (handle (handle (@initial_state (scripted construct_ok (Ok None)))
                 (Load [report_pdf] ollama_sidebar))
         (Ask (lit "What was the revenue?")))
    = turns_of turns.
Proof.
  exact (@history_is_questions_and_replies (scripted construct_ok (Ok None)) _
           (reachable_handle (Ask (lit "What was the revenue?"))
              (reachable_handle (Load [report_pdf] ollama_sidebar) reachable_initial))).
Defined.

(** X16. No interaction undoes a load: a ready session stays ready, and a
    session that has a corpus, or an engine, still has one after any click
    and any question, whether they succeed or fail. *)
Theorem readiness_is_kept {ext : Externals} (s : SessionState) (ev : Event) :
  (context_loaded s = true -> context_loaded (handle s ev) = true)
  /\ (pdf_context s <> None -> pdf_context (handle s ev) <> None)
  /\ (rlm_instance s <> None -> rlm_instance (handle s ev) <> None).
Proof.
  destruct ev as [ uploaded_files cfg | prompt ]; cbn [handle].
  - destruct (load_button_outcome s uploaded_files cfg) as [ -> | [ -> | (rlm & ->) ] ];
      cbn [context_loaded rlm_instance pdf_context]; repeat split; try tauto; discriminate.
  - destruct (chat_input_outcome s prompt) as [ -> | (_ & _ & reply & ->) ];
      cbn [context_loaded rlm_instance pdf_context]; repeat split; tauto.
Qed.

Lemma readiness_is_kept_witness :
  context_loaded
    (handle (earlier_sample construct_denied (Ok None)) (Load [report_pdf] ollama_sidebar))
  = true.
Proof.
  exact (proj1 (@readiness_is_kept (scripted construct_denied (Ok None))
                  (earlier_sample construct_denied (Ok None))
                  (Load [report_pdf] ollama_sidebar)) eq_refl).
Defined.

(** X17. In every session that interactions reach, the chat handler calls
    the engine once, with the stored corpus and the instruction built for
    the question, when the session is ready and a question was submitted,
    and does not call it otherwise. *)
Theorem engine_is_called_once_when_ready {ext : Externals}
  (s : SessionState) (prompt : str) (Hs : reachable s) :
  engine_calls (snd (chat_input s prompt))
  = if context_loaded s && nonempty prompt
    then [(pdf_context s, STRICT_QUERY_PREFIX ++ prompt)]
    else [].
Proof.
  rewrite chat_input_engine_calls.
  destruct (context_loaded s) eqn:Hready; [ | reflexivity ].
  destruct (proj1 (reachable_consistent Hs) Hready) as (rlm & _ & -> & _).
  reflexivity.
Qed.

Lemma engine_is_called_once_when_ready_witness :
  engine_calls
    (snd (chat_input
            (handle (@initial_state (scripted construct_ok (Ok None)))
               (Load [report_pdf; costs_pdf] ollama_sidebar))
            (lit "What was the revenue?")))
  = [(Some (@extract_text_from_pdfs (scripted construct_ok (Ok None))
              [report_pdf; costs_pdf]),
      STRICT_QUERY_PREFIX ++ lit "What was the revenue?")].
Proof.
  exact (@engine_is_called_once_when_ready (scripted construct_ok (Ok None))
           (handle initial_state (Load [report_pdf; costs_pdf] ollama_sidebar))
           (lit "What was the revenue?")
           (reachable_handle (Load [report_pdf; costs_pdf] ollama_sidebar)
              reachable_initial)).
Defined.

(** X18. After a click that succeeds, the first question calls the engine
    once, with the corpus extracted from the files of that click and the
    preamble followed by the question, whatever the session was before; and
    the history is then that question and its reply. *)
Theorem load_then_ask {ext : Externals}
  (s : SessionState) (uploaded_files : list UploadedFile) (cfg : Sidebar) (q : str)
  (Hloaded : loaded (snd (load_button s uploaded_files cfg)) = true)
  (Hq : q <> []) :
  engine_calls (snd (chat_input (fst (load_button s uploaded_files cfg)) q))
  = [(Some (extract_text_from_pdfs uploaded_files), STRICT_QUERY_PREFIX ++ q)]
  /\ exists reply,
       messages (fst (chat_input (fst (load_button s uploaded_files cfg)) q))
       = [ {| role := user; content := q |}; {| role := assistant; content := reply |} ].
Proof.
  assert (Hstate : exists rlm,
            fst (load_button s uploaded_files cfg)
            = {| messages := []; rlm_instance := Some rlm;
                 pdf_context := Some (extract_text_from_pdfs uploaded_files);
                 context_loaded := true |}).
  { destruct (load_button_cases s uploaded_files cfg) as [ (msg & Hrun & _) | (Hrun & _) ];
      rewrite Hrun in Hloaded |- *; [ discriminate Hloaded | ].
    now apply extract_and_initialize_loaded. }
  destruct Hstate as (rlm & ->). split.
  - rewrite chat_input_engine_calls. cbn [context_loaded rlm_instance pdf_context andb].
    now destruct q.
  - destruct (@chat_input_ready ext
                {| messages := []; rlm_instance := Some rlm;
                   pdf_context := Some (extract_text_from_pdfs uploaded_files);
                   context_loaded := true |} q eq_refl Hq) as (reply & ->).
    now exists reply.
Qed.

Lemma load_then_ask_witness :
  engine_calls
    (snd (chat_input
            (fst (load_button (earlier_sample construct_ok (Ok None)) [report_pdf]
                    ollama_sidebar))
            (lit "What was the revenue?")))
  = [(Some (@extract_text_from_pdfs (scripted construct_ok (Ok None)) [report_pdf]),
      STRICT_QUERY_PREFIX ++ lit "What was the revenue?")].
Proof.
  exact (proj1 (@load_then_ask (scripted construct_ok (Ok None))
                  (earlier_sample construct_ok (Ok None)) [report_pdf] ollama_sidebar
                  (lit "What was the revenue?") eq_refl ltac:(discriminate))).
Defined.

(** ** One run of the script *)

Section Runs.

Context {ext : Externals}.

Lemma initialize_stored s : initialize_session (stored s) = s.
Proof. now destruct s. Qed.

(** The bubbles of the chat handler hold the effects of [chat_input], in
    order. *)
Lemma chat_shown_effects s prompt :
  shown_effects (chat_shown s prompt) = snd (chat_input s prompt).
Proof.
  unfold chat_shown, chat_input.
  destruct (nonempty prompt); [ | reflexivity ].
  destruct (context_loaded s); cbn [negb]; [ | reflexivity ].
  destruct (answer_turn _ prompt) as [ reply effects ].
  cbn [snd shown_effects flat_map app]. now rewrite app_nil_r.
Qed.

Lemma bubbles_app shown1 shown2 : bubbles (shown1 ++ shown2) = bubbles shown1 ++ bubbles shown2.
Proof.
  induction shown1 as [ | [ e | msg | msg | who inside ] shown1 IH ]; cbn [app bubbles];
    rewrite ?IH; reflexivity.
Qed.

Lemma bubbles_key_loaded_notice env w : bubbles (key_loaded_notice env w) = [].
Proof.
  unfold key_loaded_notice.
  destruct (chosen_backend w); [ | | reflexivity ].
  - now destruct (nonempty (DEFAULT_OPENAI_KEY env)).
  - now destruct (nonempty (DEFAULT_GEMINI_KEY env)).
Qed.

Lemma bubbles_status s : bubbles [status_indicator s] = [].
Proof. unfold status_indicator. now destruct (context_loaded s). Qed.

Lemma bubbles_history s :
  bubbles (display_history s)
  = map (fun message => (role message, content message)) (messages s).
Proof.
  unfold display_history.
  induction (messages s) as [ | message history IH ]; [ reflexivity | ].
  cbn [map bubbles bubble_text flat_map]. now rewrite IH, app_nil_r.
Qed.

(** The bubbles of a question asked of a ready session: the question, and
    the reply that goes to the history. *)
Lemma bubbles_chat_shown s prompt :
  context_loaded s = true -> prompt <> [] ->
  bubbles (chat_shown s prompt)
  = [ (user, prompt);
      (assistant,
       content (fst (answer_turn
                       (append_message s {| role := user; content := prompt |}) prompt))) ].
Proof.
  intros Hready Hprompt. unfold chat_shown.
  destruct prompt as [ | c prompt ]; [ contradiction | ]. cbn [nonempty].
  rewrite Hready. cbn [negb bubbles bubble_text flat_map]. rewrite app_nil_r.
  do 2 f_equal. f_equal. unfold answer_turn.
  destruct (rlm_instance _) as [ rlm | ];
    [ destruct (completion rlm _ _) as [ response | e ] | ];
    unfold bubble_text; cbn [fst snd content flat_map app]; now rewrite app_nil_r.
Qed.

(** A run in which the button was not clicked: the session the handlers
    start from is the stored one, and nothing is shown for the button. *)
Lemma script_without_click env raw i :
  clicked i = false ->
  script env raw i
  = (fst (chat_input (initialize_session raw) (submitted i)),
     key_loaded_notice env (widgets i) ++ [status_indicator (initialize_session raw)]
       ++ display_history (initialize_session raw)
       ++ chat_shown (initialize_session raw) (submitted i)).
Proof. intros Hclicked. unfold script. now rewrite Hclicked. Qed.

End Runs.

(** X19. A run of the script with no click and no question leaves the
    stored session as it is and shows its history, one chat bubble for each
    message, in order; on the first run, with nothing stored, the session
    is the initial one. *)
Theorem idle_run_keeps_session_and_shows_history {ext : Externals}
  (env : Environ) (s : SessionState) (i : Interaction)
  (Hclicked : clicked i = false) (Hsubmitted : submitted i = []) :
  fst (script env (stored s) i) = s
  /\ snd (script env (stored s) i)
     = key_loaded_notice env (widgets i) ++ [status_indicator s] ++ display_history s
  /\ bubbles (snd (script env (stored s) i))
     = map (fun message => (role message, content message)) (messages s)
  /\ fst (script env fresh i) = initial_state.
Proof.
  rewrite !script_without_click by assumption.
  rewrite Hsubmitted, initialize_stored.
  cbn [fst snd chat_input chat_shown nonempty]. rewrite app_nil_r.
  split; [ reflexivity | ]. split; [ reflexivity | ]. split; [ | reflexivity ].
  now rewrite !bubbles_app, bubbles_key_loaded_notice, bubbles_status, bubbles_history.
Qed.

Lemma idle_run_keeps_session_and_shows_history_witness :
  bubbles
    (snd (script no_keys (stored (earlier_sample construct_ok (Ok None)))
            {| widgets := ollama_untouched; uploaded := []; clicked := false;
               submitted := [] |}))
  = [(user, lit "Hello"); (assistant, lit "Hi")].
Proof.
  exact (proj1 (proj2 (proj2
           (@idle_run_keeps_session_and_shows_history (scripted construct_ok (Ok None))
              no_keys (earlier_sample construct_ok (Ok None))
              {| widgets := ollama_untouched; uploaded := []; clicked := false;
                 submitted := [] |} eq_refl eq_refl)))).
Defined.

(** X20. In every run of the script, the status shown is the status of
    the session the run leaves: the sidebar says that the context is loaded
    exactly when the session is ready at the end of the run, a click of
    this run included. *)
Theorem status_shown_is_final_readiness {ext : Externals}
  (env : Environ) (raw : RawSessionState) (i : Interaction) :
  In (status_indicator (fst (script env raw i))) (snd (script env raw i))
  /\ (In (st_success (lit "Context loaded. Ready to chat!")) (snd (script env raw i))
      <-> context_loaded (fst (script env raw i)) = true).
Proof.
  unfold script.
  set (after_button :=
         if clicked i
         then let '(s, e) := load_button (initialize_session raw) (uploaded i)
                               (sidebar env (widgets i)) in (s, [effect e])
         else (initialize_session raw, [])).
  assert (Hbutton : forall shown, In shown (snd after_button) -> exists e, shown = effect e).
  { subst after_button. destruct (clicked i); [ | intros shown [] ].
    destruct (load_button _ _ _) as [ s e ]. intros shown [ <- | [] ]. now exists e. }
  pose proof (chat_input_context_loaded (fst after_button) (submitted i)) as Hkept.
  cbn [fst snd].
  assert (Hstatus : status_indicator (fst (chat_input (fst after_button) (submitted i)))
                    = status_indicator (fst after_button)).
  { unfold status_indicator. now rewrite Hkept. }
  split.
  - rewrite Hstatus. apply in_or_app. right. apply in_or_app. right. now left.
  - rewrite Hkept. unfold status_indicator. split.
    + intros Hin. apply in_app_or in Hin as [ Hin | Hin ].
      { exfalso. unfold key_loaded_notice in Hin.
        destruct (chosen_backend (widgets i)); [ | | destruct Hin ].
        - destruct (nonempty (DEFAULT_OPENAI_KEY env)); [ | destruct Hin ].
          destruct Hin as [ Hin | [] ]. discriminate Hin.
        - destruct (nonempty (DEFAULT_GEMINI_KEY env)); [ | destruct Hin ].
          destruct Hin as [ Hin | [] ]. discriminate Hin. }
      apply in_app_or in Hin as [ Hin | Hin ].
      { destruct (Hbutton _ Hin) as (e & He). discriminate He. }
      destruct Hin as [ Hin | Hin ].
      { destruct (context_loaded (fst after_button)); [ reflexivity | discriminate Hin ]. }
      exfalso. cbn [app] in Hin. apply in_app_or in Hin as [ Hin | Hin ].
      * unfold display_history in Hin. apply in_map_iff in Hin as (m & Hm & _).
        discriminate Hm.
      * unfold chat_shown in Hin.
        destruct (nonempty (submitted i)); [ | destruct Hin ].
        destruct (negb (context_loaded (fst after_button)));
          [ destruct Hin as [ Hin | [] ]; discriminate Hin | ].
        destruct Hin as [ Hin | [ Hin | [] ] ]; discriminate Hin.
    + intros ->. apply in_or_app. right. apply in_or_app. right. now left.
Qed.

(** X21. In a run where a question is asked of a ready session, the chat
    bubbles shown are the history the run leaves, each message in its own
    bubble, the question and its reply last.  The bubble of the assistant
    holds the call of the engine and then the answer, written by
    [st.markdown], when the engine returns, and the error stored as the
    reply, written by [st.error], when the engine raises. *)
Theorem bubbles_shown_are_the_history {ext : Externals}
  (env : Environ) (s : SessionState) (i : Interaction)
  (Hclicked : clicked i = false)
  (Hready : context_loaded s = true)
  (Hq : submitted i <> []) :
  bubbles (snd (script env (stored s) i))
  = map (fun message => (role message, content message))
      (messages (fst (script env (stored s) i)))
  /\ shown_effects (chat_shown s (submitted i)) = snd (chat_input s (submitted i))
  /\ (forall rlm,
        rlm_instance s = Some rlm ->
        exists reply,
          messages (fst (script env (stored s) i))
          = messages s ++ [ {| role := user; content := submitted i |};
                            {| role := assistant; content := reply |} ]
          /\ snd (script env (stored s) i)
             = key_loaded_notice env (widgets i) ++ [status_indicator s]
                 ++ display_history s
                 ++ [ chat_message user [st_markdown user (submitted i)];
                      chat_message assistant
                        [ rlm_completion (pdf_context s) (full_prompt (submitted i));
                          match completion rlm (pdf_context s) (full_prompt (submitted i))
                          with
                          | Ok _ => st_markdown assistant reply
                          | Raise _ => st_error reply
                          end ] ]
          /\ match completion rlm (pdf_context s) (full_prompt (submitted i)) with
             | Ok (Some answer) => reply = answer
             | Ok None => reply = FALLBACK_ANSWER
             | Raise e => reply = lit "Error: " ++ e
             end).
Proof.
  rewrite !script_without_click by assumption. rewrite initialize_stored.
  cbn [fst snd].
  split.
  - rewrite !bubbles_app, bubbles_key_loaded_notice, bubbles_status, bubbles_history.
    rewrite (bubbles_chat_shown _ Hready Hq).
    unfold chat_input.
    destruct (submitted i) as [ | c q ]; [ contradiction | ]. cbn [nonempty].
    rewrite Hready. cbn [negb].
    pose proof (answer_turn_reply
                  (append_message s {| role := user; content := c :: q |}) (c :: q))
      as (Hrole & _).
    destruct (answer_turn _ (c :: q)) as [ [ who reply ] effects ].
    cbn [fst role content] in *. subst who.
    unfold append_message. cbn [messages]. now rewrite <- app_assoc, map_app.
  - split; [ apply chat_shown_effects | ].
    intros rlm Hrlm. unfold chat_input, chat_shown, answer_turn.
    destruct (submitted i) as [ | c q ]; [ contradiction | ]. cbn [nonempty].
    rewrite Hready. cbn [negb append_message rlm_instance pdf_context]. rewrite Hrlm.
    destruct (completion rlm (pdf_context s) (full_prompt (c :: q)))
      as [ [ answer | ] | e ]; unfold append_message; cbn [fst snd messages]; eexists;
      (split; [ now rewrite <- app_assoc | split; reflexivity ]).
Qed.

Lemma bubbles_shown_are_the_history_witness :
  bubbles
    (snd (script no_keys
            (stored (earlier_sample construct_ok
                       (Raise (lit "Connection refused"))))
            {| widgets := ollama_untouched; uploaded := []; clicked := false;
               submitted := lit "What was the revenue?" |}))
  = [ (user, lit "Hello"); (assistant, lit "Hi");
      (user, lit "What was the revenue?");
      (assistant, lit "Error: Connection refused") ].
Proof.
  exact (proj1 (@bubbles_shown_are_the_history
                  (scripted construct_ok (Raise (lit "Connection refused")))
                  no_keys (earlier_sample construct_ok (Raise (lit "Connection refused")))
                  {| widgets := ollama_untouched; uploaded := []; clicked := false;
                     submitted := lit "What was the revenue?" |}
                  eq_refl eq_refl ltac:(discriminate))).
Defined.
